(** * The LiDAR packet gate ([scripts/xdp_gate.c]) as a Rocq function

    The XDP program [xdp_lidar_gate] looks at one received frame, lets
    everything that is not UDP/IPv4 to port 7502 through, and for the
    remaining frames consults [gate_map] to pass or drop them at random.

    The frame is a list of bytes ([data] is offset 0, [data_end] is the
    length), every packet load is fallible, the map is a finite map from
    32-bit keys to 64-bit values, and the value returned by
    [bpf_get_prandom_u32] is an explicit argument. *)

From Stdlib Require Import ZArith Lia List Bool.
From Stdlib Require Import Init.Byte.
From stdpp Require Import base option list gmap.

Local Open Scope Z_scope.

(** ** Machine integers *)

Definition u32 (x : Z) : Z := x mod 2 ^ 32.
Definition u64 (x : Z) : Z := x mod 2 ^ 64.
Definition U64_MAX : Z := 2 ^ 64 - 1.

(** Byte order of the host the program is compiled for. *)
Inductive byte_order : Set := LittleEndian | BigEndian.

(** [__constant_htons]: the identity on a big-endian host,
    [___constant_swab16] on a little-endian one. *)
Definition constant_htons (bo : byte_order) (x : Z) : Z :=
  match bo with
  | BigEndian => x
  | LittleEndian =>
      Z.lor (Z.shiftl (Z.land x 255) 8) (Z.shiftr (Z.land x 65280) 8)
  end.

(** ** Constants of the kernel headers the program includes *)

Definition ETH_P_IP : Z := 2048.        (* 0x0800, linux/if_ether.h *)
Definition IPPROTO_UDP : Z := 17.       (* linux/in.h *)
Definition LIDAR_PORT : Z := 7502.      (* 0x1D4E *)

Definition sizeof_ethhdr : Z := 14.
Definition sizeof_iphdr : Z := 20.
Definition sizeof_udphdr : Z := 8.

Definition off_h_proto : Z := 12.       (* struct ethhdr, __be16 h_proto *)
Definition off_ihl : Z := 0.            (* struct iphdr, ihl:4 / version:4 *)
Definition off_protocol : Z := 9.       (* struct iphdr, __u8 protocol *)
Definition off_dest : Z := 2.           (* struct udphdr, __be16 dest *)

(** [enum xdp_action] of linux/bpf.h. *)
Inductive xdp_action : Set :=
  | XDP_ABORTED | XDP_DROP | XDP_PASS | XDP_TX | XDP_REDIRECT.

Definition xdp_action_code (a : xdp_action) : Z :=
  match a with
  | XDP_ABORTED => 0 | XDP_DROP => 1 | XDP_PASS => 2
  | XDP_TX => 3 | XDP_REDIRECT => 4
  end.

(** ** Packet memory *)

Definition byte_val (b : byte) : Z := Z.of_N (Byte.to_N b).

(** [data_end - data]. *)
Definition data_end (f : list byte) : Z := Z.of_nat (length f).

(** One-byte load at offset [off] from [data]; [None] is an access
    outside the packet. *)
Definition load_u8 (f : list byte) (off : Z) : option Z :=
  if 0 <=? off then byte_val <$> f !! Z.to_nat off else None.

(** The 16-bit value of two consecutive bytes of memory, [b0] first. *)
Definition host16 (bo : byte_order) (b0 b1 : Z) : Z :=
  match bo with
  | LittleEndian => b0 + b1 * 256
  | BigEndian => b0 * 256 + b1
  end.

(** Two-byte load in host byte order. *)
Definition load_u16 (bo : byte_order) (f : list byte) (off : Z) : option Z :=
  b0 ← load_u8 f off;
  b1 ← load_u8 f (off + 1);
  Some (host16 bo b0 b1).

(** The [ihl] bit-field of [struct iphdr]: the low nibble of the first
    byte, whichever bit-field order the host uses. *)
Definition load_ihl (f : list byte) (ip : Z) : option Z :=
  b ← load_u8 f (ip + off_ihl);
  Some (Z.land b 15).

(** ** The shared map

    [gate_map]: key 0 holds the drop percentage, key 1 the number of
    packets passed, key 2 the number dropped. *)

Definition KEY_PCT : Z := 0.
Definition KEY_PASS : Z := 1.
Definition KEY_DROP : Z := 2.
Definition MAX_ENTRIES : Z := 4.

Definition bpf_map_lookup_elem (m : gmap Z Z) (key : Z) : option Z := m !! key.

(** [__sync_fetch_and_add(p, d)] on the 64-bit slot of [key], which
    holds [old]. *)
Definition sync_fetch_and_add (m : gmap Z Z) (key old d : Z) : gmap Z Z :=
  <[key := u64 (old + d)]> m.

(** [cnt = bpf_map_lookup_elem(&gate_map, &key);
     if (cnt) __sync_fetch_and_add(cnt, 1);] *)
Definition count_packet (m : gmap Z Z) (key : Z) : gmap Z Z :=
  match bpf_map_lookup_elem m key with
  | Some old => sync_fetch_and_add m key old 1
  | None => m
  end.

(** The declared shape of [gate_map]: a [BPF_MAP_TYPE_ARRAY] with four
    64-bit slots. *)
Definition array_map (m : gmap Z Z) : Prop :=
  (∀ k, is_Some (m !! k) ↔ 0 <= k < MAX_ENTRIES) ∧
  (∀ k v, m !! k = Some v → 0 <= v <= U64_MAX).

(** ** The program *)

(** The [return] statements of [xdp_lidar_gate], in source order. *)
Inductive ret_site : Set :=
  | RetEthShort      (* line 26 *)
  | RetNotIPv4       (* line 28 *)
  | RetIpShort       (* line 33 *)
  | RetNotUdp        (* line 35 *)
  | RetUdpShort      (* line 40 *)
  | RetOtherPort     (* line 44 *)
  | RetGateOpen      (* line 54 *)
  | RetDropped       (* line 64 *)
  | RetPassed.       (* line 71 *)

Record outcome : Type := Outcome {
  site : ret_site;
  action : xdp_action;
  map_after : gmap Z Z
}.

(** [bpf_get_prandom_u32() % 100], for the helper returning [prandom]. *)
Definition draw (prandom : Z) : Z := u32 prandom mod 100.

(** Lines 47-71: the gate decision for a LiDAR packet. *)
Definition gate_decision (m : gmap Z Z) (prandom : Z) : outcome :=
  let drop_pct := bpf_map_lookup_elem m KEY_PCT in
  match drop_pct with
  | None => Outcome RetGateOpen XDP_PASS (count_packet m KEY_PASS)
  | Some pct =>
      if pct =? 0 then Outcome RetGateOpen XDP_PASS (count_packet m KEY_PASS)
      else
        let rand := draw prandom in
        if rand <? pct
        then Outcome RetDropped XDP_DROP (count_packet m KEY_DROP)
        else Outcome RetPassed XDP_PASS (count_packet m KEY_PASS)
  end.

(** Lines 19-72.  [None] would be a load outside [data, data_end). *)
Definition xdp_lidar_gate_run (bo : byte_order) (f : list byte)
    (m : gmap Z Z) (prandom : Z) : option outcome :=
  let data := 0 in
  let eth := data in
  if eth + sizeof_ethhdr >? data_end f then Some (Outcome RetEthShort XDP_PASS m)
  else
    h_proto ← load_u16 bo f (eth + off_h_proto);
    if negb (h_proto =? constant_htons bo ETH_P_IP)
    then Some (Outcome RetNotIPv4 XDP_PASS m)
    else
      let ip := eth + sizeof_ethhdr in
      if ip + sizeof_iphdr >? data_end f then Some (Outcome RetIpShort XDP_PASS m)
      else
        protocol ← load_u8 f (ip + off_protocol);
        if negb (protocol =? IPPROTO_UDP)
        then Some (Outcome RetNotUdp XDP_PASS m)
        else
          ihl ← load_ihl f ip;
          let udp := ip + ihl * 4 in
          if udp + sizeof_udphdr >? data_end f
          then Some (Outcome RetUdpShort XDP_PASS m)
          else
            dest ← load_u16 bo f (udp + off_dest);
            if negb (dest =? constant_htons bo LIDAR_PORT)
            then Some (Outcome RetOtherPort XDP_PASS m)
            else Some (gate_decision m prandom).

(** The program as its caller sees it: the returned action and the map. *)
Definition xdp_lidar_gate (bo : byte_order) (f : list byte)
    (m : gmap Z Z) (prandom : Z) : option (xdp_action * gmap Z Z) :=
  (λ o, (action o, map_after o)) <$> xdp_lidar_gate_run bo f m prandom.

(** ** Frames as the specification describes them *)

(** The octet at position [i], 0 beyond the end. *)
Definition octet (f : list byte) (i : nat) : Z := byte_val (nth i f x00).

(** A 16-bit field in network byte order. *)
Definition be16 (f : list byte) (i : nat) : Z := octet f i * 256 + octet f (S i).

Definition ethertype (f : list byte) : Z := be16 f 12.
Definition ip_ihl (f : list byte) : Z := octet f 14 mod 16.
Definition ip_protocol (f : list byte) : Z := octet f 23.
Definition udp_offset (f : list byte) : Z := 14 + 4 * ip_ihl f.
Definition udp_dport (f : list byte) : Z := be16 f (Z.to_nat (udp_offset f + 2)).

(** Long enough for the Ethernet header, the fixed IPv4 header and a UDP
    header behind [4 * ihl] bytes of IPv4 header. *)
Definition long_enough (f : list byte) : bool :=
  (14 <=? data_end f) && (34 <=? data_end f) && (udp_offset f + 8 <=? data_end f).

(** Gate-relevant: parses as Ethernet, IPv4, UDP with destination port
    7502. *)
Definition gate_relevant (f : list byte) : bool :=
  long_enough f && (ethertype f =? 2048) && (ip_protocol f =? 17)
  && (udp_dport f =? 7502).

(** ** The header checks without their loads

    [parse f] is the return statement the header checks end in, if any,
    read off the octets of the frame. *)
Definition parse (f : list byte) : option ret_site :=
  if data_end f <? 14 then Some RetEthShort
  else if negb (ethertype f =? 2048) then Some RetNotIPv4
  else if data_end f <? 34 then Some RetIpShort
  else if negb (ip_protocol f =? 17) then Some RetNotUdp
  else if data_end f <? udp_offset f + 8 then Some RetUdpShort
  else if negb (udp_dport f =? 7502) then Some RetOtherPort
  else None.

(** The three bounds checks of the program. *)
Inductive stage : Set := StEthernet | StIPv4 | StUdp.

(** The frame length below which the bounds check of a stage fails:
    [eth + 1], [ip + 1] and [udp + 1] as offsets from [data]. *)
Definition required_length (st : stage) (f : list byte) : Z :=
  match st with
  | StEthernet => sizeof_ethhdr
  | StIPv4 => sizeof_ethhdr + sizeof_iphdr
  | StUdp => sizeof_ethhdr + ip_ihl f * 4 + sizeof_udphdr
  end.

(** The frame passes everything checked before the bounds check of the
    stage. *)
Definition reaches (st : stage) (f : list byte) : Prop :=
  match st with
  | StEthernet => True
  | StIPv4 => 14 <= data_end f ∧ ethertype f = 2048
  | StUdp => 34 <= data_end f ∧ ethertype f = 2048 ∧ ip_protocol f = 17
  end.

(** The [return] taken when the bounds check of the stage fails. *)
Definition short_site (st : stage) : ret_site :=
  match st with
  | StEthernet => RetEthShort
  | StIPv4 => RetIpShort
  | StUdp => RetUdpShort
  end.

(** The number of checks passed before a [return] statement is reached. *)
Definition depth (s : ret_site) : nat :=
  match s with
  | RetEthShort => 0
  | RetNotIPv4 => 1
  | RetIpShort => 2
  | RetNotUdp => 3
  | RetUdpShort => 4
  | RetOtherPort => 5
  | RetGateOpen | RetDropped | RetPassed => 6
  end.

(** ** Counting random draws *)

(** How many of the values [0 .. n-1] of the random helper are reduced to
    [r] by [draw]. *)
Definition draws_to (r : Z) (n : N) : N :=
  N.peano_rect (λ _, N) 0%N
    (λ k acc, if draw (Z.of_N k) =? r then N.succ acc else acc) n.

(** ** Sample inputs *)

(** A 42-byte frame: Ethernet (type 0x0800), IPv4 (ihl 5, protocol 17),
    UDP from port 7502 to port 7502, no payload. *)
Definition lidar_frame : list byte :=
  [ x02; x00; x00; x00; x00; x01;  x02; x00; x00; x00; x00; x02;  x08; x00;
    x45; x00; x00; x1c; x00; x00; x40; x00; x40; x11; x00; x00;
    x0a; x00; x00; x01;  x0a; x00; x00; x02;
    x1d; x4e; x1d; x4e; x00; x08; x00; x00 ].

(** [gate_map] with the given drop percentage and counters. *)
Definition gate_map_of (pct passed dropped : Z) : gmap Z Z :=
  {[ 0 := pct; 1 := passed; 2 := dropped; 3 := 0 ]}.

(** The sample frame with destination port 7503. *)
Definition other_port_frame : list byte :=
  [ x02; x00; x00; x00; x00; x01;  x02; x00; x00; x00; x00; x02;  x08; x00;
    x45; x00; x00; x1c; x00; x00; x40; x00; x40; x11; x00; x00;
    x0a; x00; x00; x01;  x0a; x00; x00; x02;
    x1d; x4e; x1d; x4f; x00; x08; x00; x00 ].

(** A 34-byte frame whose IPv4 header announces [ihl = 0]: the UDP header
    is then looked for at offset 14, on top of the IPv4 header, and what is
    read as the destination port is the IPv4 total-length field (here
    0x1D4E). *)
Definition overlay_frame : list byte :=
  [ x02; x00; x00; x00; x00; x01;  x02; x00; x00; x00; x00; x02;  x08; x00;
    x40; x00; x1d; x4e; x00; x00; x40; x00; x40; x11; x00; x00;
    x0a; x00; x00; x01;  x0a; x00; x00; x02 ].

(** ** Verdicts over many draws and many frames *)

Definition is_drop (a : xdp_action) : bool :=
  match a with XDP_DROP => true | _ => false end.

(** How many of the values [0 .. n-1] of the random helper make the gate
    decision return [XDP_DROP] under the map [m]. *)
Definition drops_among (m : gmap Z Z) (n : N) : N :=
  N.peano_rect (λ _, N) 0%N
    (λ k acc,
       if is_drop (action (gate_decision m (Z.of_N k))) then N.succ acc else acc)
    n.

(** The program run on one frame after the other, each with the value the
    random helper returns during that run; the map left by one run is the
    map the next run finds. *)
Fixpoint xdp_lidar_gate_seq (bo : byte_order) (calls : list (list byte * Z))
    (m : gmap Z Z) : option (list xdp_action * gmap Z Z) :=
  match calls with
  | [] => Some ([], m)
  | (f, prandom) :: rest =>
      match xdp_lidar_gate bo f m prandom with
      | Some (a, m1) =>
          match xdp_lidar_gate_seq bo rest m1 with
          | Some (acts, m2) => Some (a :: acts, m2)
          | None => None
          end
      | None => None
      end
  end.

(** The number of [XDP_DROP] verdicts in a list of verdicts, and the number
    of gate-relevant frames in a list of runs. *)
Definition verdicts_dropped (acts : list xdp_action) : Z :=
  Z.of_nat (length (List.filter is_drop acts)).

Definition frames_relevant (calls : list (list byte * Z)) : Z :=
  Z.of_nat (length (List.filter (λ c, gate_relevant (fst c)) calls)).

(** A 48-byte frame with one 4-byte IPv4 option ([ihl = 6]) in front of a
    UDP header for port 7502, in its four layers. *)
Definition sample_eth : list byte :=
  [ x02; x00; x00; x00; x00; x01;  x02; x00; x00; x00; x00; x02;  x08; x00 ].

Definition sample_ip_options : list byte :=
  [ x46; x00; x00; x22; x00; x00; x40; x00; x40; x11; x00; x00;
    x0a; x00; x00; x01;  x0a; x00; x00; x02;  x01; x01; x01; x00 ].

Definition sample_udp : list byte :=
  [ x1d; x4e; x1d; x4e; x00; x0a; x00; x00 ].

Definition sample_payload : list byte := [ xca; xfe ].

(** ** Loads inside the packet succeed *)

Lemma byte_val_range (b : byte) : 0 <= byte_val b < 256.
Proof.
  unfold byte_val. pose proof (Byte.to_N_bounded b) as Hb. lia.
Qed.

Lemma octet_range (f : list byte) (i : nat) : 0 <= octet f i < 256.
Proof. apply byte_val_range. Qed.

Lemma load_u8_inside (f : list byte) (off : Z) :
  0 <= off < data_end f → load_u8 f off = Some (octet f (Z.to_nat off)).
Proof.
  unfold load_u8, data_end, octet. intros [Hlo Hhi].
  destruct (0 <=? off) eqn:E; [|lia].
  destruct (lookup_lt_is_Some_2 f (Z.to_nat off)) as [b Hb]; [lia|].
  rewrite Hb. simpl. f_equal. f_equal.
  rewrite nth_lookup, Hb. reflexivity.
Qed.

Lemma load_u16_inside (bo : byte_order) (f : list byte) (off : Z) :
  0 <= off → off + 2 <= data_end f →
  load_u16 bo f off =
    Some (host16 bo (octet f (Z.to_nat off)) (octet f (S (Z.to_nat off)))).
Proof.
  intros Hlo Hhi. unfold load_u16.
  rewrite !load_u8_inside by lia. simpl.
  replace (Z.to_nat (off + 1)) with (S (Z.to_nat off)) by lia.
  reflexivity.
Qed.

Lemma load_ihl_inside (f : list byte) (ip : Z) :
  0 <= ip < data_end f →
  load_ihl f ip = Some (octet f (Z.to_nat ip) mod 16).
Proof.
  intros Hin. unfold load_ihl, off_ihl.
  replace (ip + 0) with ip by lia.
  rewrite load_u8_inside by lia. simpl.
  f_equal. change 15 with (Z.ones 4). rewrite Z.land_ones by lia. reflexivity.
Qed.

(** Comparing a two-byte field, loaded in host order, with
    [__constant_htons c] compares its network-order value with [c]. *)
Lemma host_order_compare (bo : byte_order) (b0 b1 c : Z) :
  c = ETH_P_IP ∨ c = LIDAR_PORT →
  0 <= b0 < 256 → 0 <= b1 < 256 →
  (host16 bo b0 b1 =? constant_htons bo c) = (b0 * 256 + b1 =? c).
Proof.
  intros Hc H0 H1.
  destruct bo; [|reflexivity].
  destruct Hc as [-> | ->]; vm_compute constant_htons;
    unfold host16, ETH_P_IP, LIDAR_PORT; lia.
Qed.

Lemma load_u16_compare {A : Type} (bo : byte_order) (f : list byte)
    (off c : Z) (no yes : option A) :
  c = ETH_P_IP ∨ c = LIDAR_PORT →
  0 <= off → off + 2 <= data_end f →
  (load_u16 bo f off ≫= λ x, if negb (x =? constant_htons bo c) then no else yes)
  = if negb (be16 f (Z.to_nat off) =? c) then no else yes.
Proof.
  intros Hc Hlo Hhi. rewrite load_u16_inside by lia. simpl.
  rewrite host_order_compare by (auto using octet_range). reflexivity.
Qed.

Lemma ip_ihl_range (f : list byte) : 0 <= ip_ihl f <= 15.
Proof. unfold ip_ihl. pose proof (Z.mod_pos_bound (octet f 14) 16). lia. Qed.

Lemma udp_offset_range (f : list byte) : 14 <= udp_offset f <= 74.
Proof. unfold udp_offset. pose proof (ip_ihl_range f). lia. Qed.

(** ** The program and its header checks *)

Lemma run_parse (bo : byte_order) (f : list byte) (m : gmap Z Z) (prandom : Z) :
  xdp_lidar_gate_run bo f m prandom =
    Some (match parse f with
          | Some s => Outcome s XDP_PASS m
          | None => gate_decision m prandom
          end).
Proof.
  unfold xdp_lidar_gate_run, parse, sizeof_ethhdr, sizeof_iphdr, sizeof_udphdr,
    off_h_proto, off_protocol, off_dest.
  change (0 + 14 + 20) with 34. change (0 + 14 + 9) with 23.
  change (0 + 14) with 14. change (0 + 12) with 12.
  destruct (14 >? data_end f) eqn:E1.
  { destruct (data_end f <? 14) eqn:E1'; [reflexivity|lia]. }
  destruct (data_end f <? 14) eqn:E1'; [lia|].
  rewrite load_u16_compare by (auto; lia).
  change (be16 f (Z.to_nat 12)) with (ethertype f). change ETH_P_IP with 2048.
  destruct (ethertype f =? 2048) eqn:E2; [|reflexivity]. simpl negb. cbv iota.
  destruct (34 >? data_end f) eqn:E3.
  { destruct (data_end f <? 34) eqn:E3'; [reflexivity|lia]. }
  destruct (data_end f <? 34) eqn:E3'; [lia|].
  rewrite load_u8_inside by lia.
  change (octet f (Z.to_nat 23)) with (ip_protocol f). change IPPROTO_UDP with 17.
  simpl mbind.
  destruct (ip_protocol f =? 17) eqn:E4; [|reflexivity]. simpl negb. cbv iota.
  rewrite load_ihl_inside by lia.
  change (octet f (Z.to_nat 14) mod 16) with (ip_ihl f). simpl mbind.
  pose proof (udp_offset_range f) as Hudp.
  replace (14 + ip_ihl f * 4) with (udp_offset f) by (unfold udp_offset; lia).
  destruct (udp_offset f + 8 >? data_end f) eqn:E5.
  { destruct (data_end f <? udp_offset f + 8) eqn:E5'; [reflexivity|lia]. }
  destruct (data_end f <? udp_offset f + 8) eqn:E5'; [lia|].
  rewrite load_u16_compare by (auto; lia).
  change (be16 f (Z.to_nat (udp_offset f + 2))) with (udp_dport f).
  change LIDAR_PORT with 7502.
  destruct (udp_dport f =? 7502); reflexivity.
Qed.

(** [parse] finds no early return exactly on the gate-relevant frames. *)
Lemma parse_gate_relevant (f : list byte) :
  parse f = None ↔ gate_relevant f = true.
Proof.
  unfold parse, gate_relevant, long_enough.
  pose proof (udp_offset_range f) as Hudp.
  destruct (data_end f <? 14) eqn:E1, (ethertype f =? 2048) eqn:E2,
    (data_end f <? 34) eqn:E3, (ip_protocol f =? 17) eqn:E4,
    (data_end f <? udp_offset f + 8) eqn:E5, (udp_dport f =? 7502) eqn:E6;
    destruct (14 <=? data_end f) eqn:E1', (34 <=? data_end f) eqn:E3',
      (udp_offset f + 8 <=? data_end f) eqn:E5';
    simpl; split; intros Heq; try discriminate Heq; try reflexivity; lia.
Qed.

(** What disqualifies a frame: it is too short at one of the three
    stages, or it is not IPv4, not UDP, or for another port. *)
Lemma not_gate_relevant_cases (f : list byte) :
  gate_relevant f = false ↔
    data_end f < 14 ∨ ethertype f ≠ 2048 ∨ data_end f < 34
    ∨ ip_protocol f ≠ 17 ∨ data_end f < udp_offset f + 8
    ∨ udp_dport f ≠ 7502.
Proof.
  unfold gate_relevant, long_enough.
  rewrite !andb_false_iff, !Z.leb_gt, !Z.eqb_neq. tauto.
Qed.

Lemma run_gate_relevant (bo : byte_order) (f : list byte) (m : gmap Z Z)
    (prandom : Z) :
  gate_relevant f = true →
  xdp_lidar_gate_run bo f m prandom = Some (gate_decision m prandom).
Proof.
  intros Hrel. apply parse_gate_relevant in Hrel.
  rewrite run_parse, Hrel. reflexivity.
Qed.

Lemma run_not_gate_relevant (bo : byte_order) (f : list byte) (m : gmap Z Z)
    (prandom : Z) :
  gate_relevant f = false →
  ∃ s, parse f = Some s ∧
       xdp_lidar_gate_run bo f m prandom = Some (Outcome s XDP_PASS m).
Proof.
  intros Hrel. rewrite run_parse.
  destruct (parse f) as [s|] eqn:Hp; [eauto|].
  apply parse_gate_relevant in Hp. congruence.
Qed.

(** ** The counters *)

Lemma count_packet_same (m : gmap Z Z) (key : Z) :
  count_packet m key !! key = (λ v, u64 (v + 1)) <$> m !! key.
Proof.
  unfold count_packet, bpf_map_lookup_elem, sync_fetch_and_add.
  destruct (m !! key) as [v|] eqn:Hk.
  - rewrite lookup_insert_eq. reflexivity.
  - rewrite Hk. reflexivity.
Qed.

Lemma count_packet_other (m : gmap Z Z) (key k : Z) :
  key ≠ k → count_packet m key !! k = m !! k.
Proof.
  unfold count_packet, bpf_map_lookup_elem, sync_fetch_and_add. intros Hne.
  destruct (m !! key); [apply lookup_insert_ne; exact Hne | reflexivity].
Qed.

Lemma u64_succ (v : Z) : 0 <= v < U64_MAX → u64 (v + 1) = v + 1.
Proof. unfold u64, U64_MAX. intros Hv. apply Z.mod_small. lia. Qed.

(** Counting a packet under [key], whose slot holds [v]: the slot holds the
    64-bit successor of [v], which is [v + 1] unless [v] is the largest
    64-bit value, and the other slots are as before. *)
Lemma count_packet_effect (m : gmap Z Z) (key v : Z) :
  m !! key = Some v →
  count_packet m key !! key = Some (u64 (v + 1))
  ∧ (0 <= v < U64_MAX → count_packet m key !! key = Some (v + 1))
  ∧ ∀ k, k ≠ key → count_packet m key !! k = m !! k.
Proof.
  intros Hv.
  assert (Hnew : count_packet m key !! key = Some (u64 (v + 1)))
    by (rewrite count_packet_same, Hv; reflexivity).
  split; [exact Hnew|]. split.
  - intros Hrange. rewrite Hnew, (u64_succ v Hrange). reflexivity.
  - intros k Hk. apply count_packet_other. congruence.
Qed.

Lemma u64_succ_max : u64 (U64_MAX + 1) = 0.
Proof. reflexivity. Qed.

Lemma count_packet_array_map (m : gmap Z Z) (key : Z) :
  array_map m → array_map (count_packet m key).
Proof.
  intros [Hdom Hval]. split.
  - intros k. rewrite <- Hdom. destruct (decide (key = k)) as [->|Hne].
    + rewrite count_packet_same, fmap_is_Some. reflexivity.
    + rewrite count_packet_other by exact Hne. reflexivity.
  - intros k v. destruct (decide (key = k)) as [->|Hne].
    + rewrite count_packet_same. destruct (m !! k) as [w|]; [|discriminate].
      simpl. intros [= <-]. unfold u64, U64_MAX.
      pose proof (Z.mod_pos_bound (w + 1) (2 ^ 64)). lia.
    + rewrite count_packet_other by exact Hne. apply Hval.
Qed.

Lemma draw_range (prandom : Z) : 0 <= draw prandom < 100.
Proof. unfold draw. apply Z.mod_pos_bound. lia. Qed.

(** The three ways the gate decision can end. *)
Lemma gate_decision_open (m : gmap Z Z) (prandom : Z) :
  m !! KEY_PCT = None ∨ m !! KEY_PCT = Some 0 →
  gate_decision m prandom = Outcome RetGateOpen XDP_PASS (count_packet m KEY_PASS).
Proof.
  unfold gate_decision, bpf_map_lookup_elem. intros [-> | ->]; reflexivity.
Qed.

Lemma gate_decision_drop (m : gmap Z Z) (prandom pct : Z) :
  m !! KEY_PCT = Some pct → draw prandom < pct →
  gate_decision m prandom = Outcome RetDropped XDP_DROP (count_packet m KEY_DROP).
Proof.
  unfold gate_decision, bpf_map_lookup_elem. intros -> Hlt.
  pose proof (draw_range prandom) as Hd.
  destruct (pct =? 0) eqn:E0; [lia|].
  destruct (draw prandom <? pct) eqn:E1; [reflexivity|lia].
Qed.

Lemma gate_decision_pass (m : gmap Z Z) (prandom pct : Z) :
  m !! KEY_PCT = Some pct → pct ≠ 0 → pct <= draw prandom →
  gate_decision m prandom = Outcome RetPassed XDP_PASS (count_packet m KEY_PASS).
Proof.
  unfold gate_decision, bpf_map_lookup_elem. intros -> Hnz Hge.
  destruct (pct =? 0) eqn:E0; [lia|].
  destruct (draw prandom <? pct) eqn:E1; [lia|reflexivity].
Qed.

(** One call keeps [gate_map] a four-slot array of 64-bit values. *)
Lemma gate_decision_array_map (m : gmap Z Z) (prandom : Z) :
  array_map m → array_map (map_after (gate_decision m prandom)).
Proof.
  intros Harr. unfold gate_decision.
  destruct (bpf_map_lookup_elem m KEY_PCT) as [pct|];
    [destruct (pct =? 0); [|destruct (draw prandom <? pct)]|];
    simpl; apply count_packet_array_map; exact Harr.
Qed.

(** X12 (shape of the map): when [gate_map] is the declared array, four
    slots under the keys 0 to 3 holding 64-bit values, it is still that
    after a run, on every frame and for every value of the random helper. *)
Lemma xdp_lidar_gate_array_map (bo : byte_order) (f : list byte)
    (m m' : gmap Z Z) (prandom : Z) (a : xdp_action) :
  array_map m → xdp_lidar_gate bo f m prandom = Some (a, m') → array_map m'.
Proof.
  intros Harr. unfold xdp_lidar_gate. rewrite run_parse.
  destruct (parse f) as [s|]; simpl; intros [= _ <-];
    [exact Harr | apply gate_decision_array_map; exact Harr].
Qed.

(** ** The sample frames *)

Example lidar_frame_relevant : gate_relevant lidar_frame = true.
Proof. reflexivity. Qed.

Example lidar_frame_half_dropped :
  xdp_lidar_gate LittleEndian lidar_frame (gate_map_of 50 5 7) 1234
  = Some (XDP_DROP, gate_map_of 50 5 8).
Proof. vm_compute. reflexivity. Qed.

(** A map in which key 0 was never written: the gate is open. *)
Example lidar_frame_unconfigured :
  xdp_lidar_gate LittleEndian lidar_frame {[ 1 := 5; 2 := 7 ]} 1234
  = Some (XDP_PASS, {[ 1 := 6; 2 := 7 ]}).
Proof. vm_compute. reflexivity. Qed.

Example lidar_frame_half_passed :
  xdp_lidar_gate BigEndian lidar_frame (gate_map_of 50 5 7) 1250
  = Some (XDP_PASS, gate_map_of 50 6 7).
Proof. vm_compute. reflexivity. Qed.

(** ** Properties of the gate *)

(** C1 (gate open), as the program has it: for every gate-relevant frame,
    when key 0 of the map is absent or holds 0, the program returns
    [XDP_PASS], the passed counter at key 1 goes from [v] to
    [(v + 1) mod 2^64], which is exactly [v + 1] when [v] is below the
    largest 64-bit value, and the dropped counter at key 2, like every
    other key, keeps its value. *)
Theorem gate_open_passes (bo : byte_order) (f : list byte) (m : gmap Z Z)
    (prandom v : Z) :
  gate_relevant f = true →
  m !! KEY_PCT = None ∨ m !! KEY_PCT = Some 0 →
  m !! KEY_PASS = Some v →
  ∃ m', xdp_lidar_gate bo f m prandom = Some (XDP_PASS, m')
        ∧ m' !! KEY_PASS = Some (u64 (v + 1))
        ∧ (0 <= v < U64_MAX → m' !! KEY_PASS = Some (v + 1))
        ∧ m' !! KEY_DROP = m !! KEY_DROP
        ∧ ∀ k, k ≠ KEY_PASS → m' !! k = m !! k.
Proof.
  intros Hrel Hpct Hpass. exists (count_packet m KEY_PASS).
  unfold xdp_lidar_gate.
  rewrite (run_gate_relevant bo f m prandom Hrel),
    (gate_decision_open m prandom Hpct).
  destruct (count_packet_effect m KEY_PASS v Hpass) as (Hnew & Hexact & Hrest).
  split; [reflexivity|]. split; [exact Hnew|]. split; [exact Hexact|].
  split; [apply Hrest; discriminate | exact Hrest].
Qed.

Lemma gate_open_passes_witness :
  ∃ m', xdp_lidar_gate LittleEndian lidar_frame (gate_map_of 0 5 7) 99
        = Some (XDP_PASS, m')
        ∧ m' !! KEY_PASS = Some (u64 (5 + 1))
        ∧ (0 <= 5 < U64_MAX → m' !! KEY_PASS = Some (5 + 1))
        ∧ m' !! KEY_DROP = gate_map_of 0 5 7 !! KEY_DROP
        ∧ ∀ k, k ≠ KEY_PASS → m' !! k = gate_map_of 0 5 7 !! k.
Proof.
  apply (gate_open_passes LittleEndian lidar_frame (gate_map_of 0 5 7) 99 5).
  - reflexivity.
  - right. reflexivity.
  - reflexivity.
Defined.

(** C1 fails as stated: with the gate open (key 0 holds 0) and the passed
    counter at the largest 64-bit value, the run on the gate-relevant
    [lidar_frame] returns [XDP_PASS] and leaves 0 at key 1, which is not
    the old value plus 1. *)
Lemma gate_open_wraps_passed_count :
  gate_relevant lidar_frame = true
  ∧ gate_map_of 0 18446744073709551615 3 !! KEY_PCT = Some 0
  ∧ gate_map_of 0 18446744073709551615 3 !! KEY_PASS
    = Some 18446744073709551615
  ∧ xdp_lidar_gate BigEndian lidar_frame
      (gate_map_of 0 18446744073709551615 3) 99
    = Some (XDP_PASS, gate_map_of 0 0 3)
  ∧ gate_map_of 0 0 3 !! KEY_PASS = Some 0
  ∧ 0 ≠ 18446744073709551615 + 1.
Proof.
  split; [reflexivity|]. split; [reflexivity|]. split; [reflexivity|].
  split; [vm_compute; reflexivity|]. split; [reflexivity | discriminate].
Qed.

(** C2 (gate full), as the program has it: for every gate-relevant frame,
    when key 0 holds 100, the program returns [XDP_DROP] whatever the
    random helper returns (the draw is always in [0,100)), the dropped
    counter at key 2 goes from [v] to [(v + 1) mod 2^64], which is exactly
    [v + 1] when [v] is below the largest 64-bit value, and the passed
    counter at key 1, like every other key, keeps its value. *)
Theorem gate_full_drops (bo : byte_order) (f : list byte) (m : gmap Z Z)
    (prandom v : Z) :
  gate_relevant f = true →
  m !! KEY_PCT = Some 100 →
  m !! KEY_DROP = Some v →
  0 <= draw prandom < 100
  ∧ ∃ m', xdp_lidar_gate bo f m prandom = Some (XDP_DROP, m')
          ∧ m' !! KEY_DROP = Some (u64 (v + 1))
          ∧ (0 <= v < U64_MAX → m' !! KEY_DROP = Some (v + 1))
          ∧ m' !! KEY_PASS = m !! KEY_PASS
          ∧ ∀ k, k ≠ KEY_DROP → m' !! k = m !! k.
Proof.
  intros Hrel Hpct Hdrop. pose proof (draw_range prandom) as Hd.
  split; [exact Hd|]. exists (count_packet m KEY_DROP).
  unfold xdp_lidar_gate.
  rewrite (run_gate_relevant bo f m prandom Hrel),
    (gate_decision_drop m prandom 100 Hpct) by lia.
  destruct (count_packet_effect m KEY_DROP v Hdrop) as (Hnew & Hexact & Hrest).
  split; [reflexivity|]. split; [exact Hnew|]. split; [exact Hexact|].
  split; [apply Hrest; discriminate | exact Hrest].
Qed.

Lemma gate_full_drops_witness :
  0 <= draw 4294967295 < 100
  ∧ ∃ m', xdp_lidar_gate BigEndian lidar_frame (gate_map_of 100 5 7) 4294967295
          = Some (XDP_DROP, m')
          ∧ m' !! KEY_DROP = Some (u64 (7 + 1))
          ∧ (0 <= 7 < U64_MAX → m' !! KEY_DROP = Some (7 + 1))
          ∧ m' !! KEY_PASS = gate_map_of 100 5 7 !! KEY_PASS
          ∧ ∀ k, k ≠ KEY_DROP → m' !! k = gate_map_of 100 5 7 !! k.
Proof.
  apply (gate_full_drops BigEndian lidar_frame (gate_map_of 100 5 7) 4294967295 7).
  - reflexivity.
  - reflexivity.
  - reflexivity.
Defined.

(** C2 fails as stated: with key 0 holding 100 and the dropped counter at
    the largest 64-bit value, the run on the gate-relevant [lidar_frame]
    returns [XDP_DROP] and leaves 0 at key 2, which is not the old value
    plus 1. *)
Lemma gate_full_wraps_dropped_count :
  gate_relevant lidar_frame = true
  ∧ gate_map_of 100 5 18446744073709551615 !! KEY_PCT = Some 100
  ∧ gate_map_of 100 5 18446744073709551615 !! KEY_DROP
    = Some 18446744073709551615
  ∧ xdp_lidar_gate LittleEndian lidar_frame
      (gate_map_of 100 5 18446744073709551615) 42
    = Some (XDP_DROP, gate_map_of 100 5 0)
  ∧ gate_map_of 100 5 0 !! KEY_DROP = Some 0
  ∧ 0 ≠ 18446744073709551615 + 1.
Proof.
  split; [reflexivity|]. split; [reflexivity|]. split; [reflexivity|].
  split; [vm_compute; reflexivity|]. split; [reflexivity | discriminate].
Qed.

(** C10 (percentage above 100): for every gate-relevant frame, when key 0
    holds a value strictly greater than 100, every draw is strictly less
    than it, so the program returns [XDP_DROP] whatever the random helper
    returns and the dropped counter at key 2 goes from [v] to [v + 1] as a
    64-bit value; no other key changes. *)
Theorem gate_above_100_drops (bo : byte_order) (f : list byte) (m : gmap Z Z)
    (prandom pct v : Z) :
  gate_relevant f = true →
  m !! KEY_PCT = Some pct →
  100 < pct →
  m !! KEY_DROP = Some v →
  draw prandom < pct
  ∧ ∃ m', xdp_lidar_gate bo f m prandom = Some (XDP_DROP, m')
          ∧ m' !! KEY_DROP = Some (u64 (v + 1))
          ∧ (0 <= v < U64_MAX → m' !! KEY_DROP = Some (v + 1))
          ∧ ∀ k, k ≠ KEY_DROP → m' !! k = m !! k.
Proof.
  intros Hrel Hpct Hbig Hdrop. pose proof (draw_range prandom) as Hd.
  split; [lia|]. exists (count_packet m KEY_DROP).
  unfold xdp_lidar_gate.
  rewrite (run_gate_relevant bo f m prandom Hrel),
    (gate_decision_drop m prandom pct Hpct) by lia.
  destruct (count_packet_effect m KEY_DROP v Hdrop) as (Hnew & Hexact & Hrest).
  split; [reflexivity|]. split; [exact Hnew|]. split; [exact Hexact | exact Hrest].
Qed.

Lemma gate_above_100_drops_witness :
  draw 99 < 101
  ∧ ∃ m', xdp_lidar_gate LittleEndian lidar_frame (gate_map_of 101 5 7) 99
          = Some (XDP_DROP, m')
          ∧ m' !! KEY_DROP = Some (u64 (7 + 1))
          ∧ (0 <= 7 < U64_MAX → m' !! KEY_DROP = Some (7 + 1))
          ∧ ∀ k, k ≠ KEY_DROP → m' !! k = gate_map_of 101 5 7 !! k.
Proof.
  apply (gate_above_100_drops LittleEndian lidar_frame (gate_map_of 101 5 7)
           99 101 7).
  - reflexivity.
  - reflexivity.
  - lia.
  - reflexivity.
Defined.

(** C3 (non-qualifying pass-through): every frame that is not
    gate-relevant, that is, too short at one of the three parsing stages,
    not IPv4 by its ethertype, not UDP by its IP protocol, or addressed to
    another destination port, is passed with the map, and so both counters,
    unchanged, whatever drop percentage the map holds and whatever the
    random helper returns. *)
Theorem non_qualifying_frame_passes (bo : byte_order) (f : list byte)
    (m : gmap Z Z) (prandom : Z) :
  data_end f < 14 ∨ ethertype f ≠ 2048 ∨ data_end f < 34
  ∨ ip_protocol f ≠ 17 ∨ data_end f < udp_offset f + 8
  ∨ udp_dport f ≠ 7502 →
  gate_relevant f = false
  ∧ xdp_lidar_gate bo f m prandom = Some (XDP_PASS, m).
Proof.
  intros Hcases. apply not_gate_relevant_cases in Hcases.
  split; [exact Hcases|].
  destruct (run_not_gate_relevant bo f m prandom Hcases) as (s & _ & Hrun).
  unfold xdp_lidar_gate. rewrite Hrun. reflexivity.
Qed.

Lemma non_qualifying_frame_passes_witness :
  (gate_relevant other_port_frame = false
   ∧ xdp_lidar_gate LittleEndian other_port_frame (gate_map_of 100 5 7) 0
     = Some (XDP_PASS, gate_map_of 100 5 7))
  ∧ (gate_relevant [] = false
     ∧ xdp_lidar_gate BigEndian [] (gate_map_of 100 5 7) 0
       = Some (XDP_PASS, gate_map_of 100 5 7)).
Proof.
  split.
  - apply (non_qualifying_frame_passes LittleEndian other_port_frame
             (gate_map_of 100 5 7) 0).
    do 5 right. vm_compute. discriminate.
  - apply (non_qualifying_frame_passes BigEndian [] (gate_map_of 100 5 7) 0).
    left. vm_compute. reflexivity.
Defined.

(** C8 (totality): on every frame, the empty one included, every map and
    every value of the random helper the program performs no load outside
    the packet and returns one action, which is [XDP_PASS] or [XDP_DROP]. *)
Theorem xdp_lidar_gate_total (bo : byte_order) (f : list byte) (m : gmap Z Z)
    (prandom : Z) :
  ∃ a m', xdp_lidar_gate bo f m prandom = Some (a, m')
          ∧ (a = XDP_PASS ∨ a = XDP_DROP).
Proof.
  unfold xdp_lidar_gate. rewrite run_parse.
  destruct (parse f) as [s|].
  - exists XDP_PASS, m. split; [reflexivity | left; reflexivity].
  - unfold gate_decision.
    destruct (bpf_map_lookup_elem m KEY_PCT) as [pct|].
    + destruct (pct =? 0).
      * eexists _, _. split; [reflexivity | left; reflexivity].
      * destruct (draw prandom <? pct).
        -- eexists _, _. split; [reflexivity | right; reflexivity].
        -- eexists _, _. split; [reflexivity | left; reflexivity].
    + eexists _, _. split; [reflexivity | left; reflexivity].
Qed.

(** C5 (port discrimination): take a gate-relevant frame [f1] (destination
    port 7502) and a frame [f2] of the same length that agrees with it on
    every byte outside the two bytes of the UDP destination port and whose
    destination port is not 7502.  Then [f2] is passed at the port check,
    with the map and so both counters unchanged, whatever drop percentage
    the map holds and whatever the random helper returns. *)
Theorem port_discrimination (bo : byte_order) (f1 f2 : list byte)
    (m : gmap Z Z) (prandom : Z) :
  gate_relevant f1 = true →
  length f2 = length f1 →
  (∀ i : nat, i ≠ Z.to_nat (udp_offset f1 + 2) →
              i ≠ S (Z.to_nat (udp_offset f1 + 2)) →
              nth i f2 x00 = nth i f1 x00) →
  udp_dport f2 ≠ 7502 →
  xdp_lidar_gate bo f2 m prandom = Some (XDP_PASS, m)
  ∧ site <$> xdp_lidar_gate_run bo f2 m prandom = Some RetOtherPort.
Proof.
  intros Hrel Hlen Hsame Hport.
  pose proof (udp_offset_range f1) as Hoff.
  assert (Hmul : udp_offset f1 = 14 + 4 * ip_ihl f1) by reflexivity.
  pose proof (ip_ihl_range f1) as Hihl.
  assert (Hoct : ∀ i : nat, (i = 12 ∨ i = 13 ∨ i = 14 ∨ i = 23)%nat →
                            octet f2 i = octet f1 i).
  { intros i Hi. unfold octet. rewrite Hsame; [reflexivity | lia | lia]. }
  assert (He : ethertype f2 = ethertype f1)
    by (unfold ethertype, be16; rewrite !Hoct by lia; reflexivity).
  assert (Hi : ip_ihl f2 = ip_ihl f1)
    by (unfold ip_ihl; rewrite Hoct by lia; reflexivity).
  assert (Hp : ip_protocol f2 = ip_protocol f1)
    by (unfold ip_protocol; rewrite Hoct by lia; reflexivity).
  assert (Hu : udp_offset f2 = udp_offset f1)
    by (unfold udp_offset; rewrite Hi; reflexivity).
  assert (Hd : data_end f2 = data_end f1)
    by (unfold data_end; rewrite Hlen; reflexivity).
  assert (Hparse : parse f2 = Some RetOtherPort).
  { apply parse_gate_relevant in Hrel. revert Hrel.
    unfold parse. rewrite He, Hp, Hu, Hd.
    apply Z.eqb_neq in Hport. rewrite Hport.
    destruct (data_end f1 <? 14); [discriminate|].
    destruct (negb (ethertype f1 =? 2048)); [discriminate|].
    destruct (data_end f1 <? 34); [discriminate|].
    destruct (negb (ip_protocol f1 =? 17)); [discriminate|].
    destruct (data_end f1 <? udp_offset f1 + 8); [discriminate|].
    reflexivity. }
  unfold xdp_lidar_gate. rewrite run_parse, Hparse. split; reflexivity.
Qed.

Lemma port_discrimination_witness :
  xdp_lidar_gate LittleEndian other_port_frame (gate_map_of 100 5 7) 0
  = Some (XDP_PASS, gate_map_of 100 5 7)
  ∧ site <$> xdp_lidar_gate_run LittleEndian other_port_frame
               (gate_map_of 100 5 7) 0 = Some RetOtherPort.
Proof.
  apply (port_discrimination LittleEndian lidar_frame other_port_frame
           (gate_map_of 100 5 7) 0).
  - reflexivity.
  - reflexivity.
  - intros i Hne1 Hne2.
    do 36 (destruct i as [|i]; [reflexivity|]).
    destruct i as [|i]; [exfalso; apply Hne1; reflexivity|].
    destruct i as [|i]; [exfalso; apply Hne2; reflexivity|].
    do 4 (destruct i as [|i]; [reflexivity|]).
    destruct i; reflexivity.
  - vm_compute. discriminate.
Defined.

(** Closes a goal [∃ o, Some o' = Some o ∧ depth s < depth (site o)] once
    the program has been reduced to its [return]. *)
Ltac ends_deeper := eexists; split; [reflexivity | simpl; lia].

Lemma gate_decision_depth (m : gmap Z Z) (prandom : Z) :
  depth (site (gate_decision m prandom)) = 6%nat.
Proof.
  unfold gate_decision. destruct (bpf_map_lookup_elem m KEY_PCT) as [pct|];
    [|reflexivity].
  destruct (pct =? 0); [reflexivity|].
  destruct (draw prandom <? pct); reflexivity.
Qed.

(** C4 (boundary truncation): at each of the three stages (Ethernet
    header, fixed IPv4 header, UDP header at offset 14 + 4 * ihl) a frame
    one byte shorter than the stage's bounds check requires is passed with
    the map, and so both counters, unchanged; when the frame reaches that
    check, the [return] taken is the one of that check.  A frame of exactly
    the required length that reaches the check gets past it: the program
    ends at a later [return], after the next check has been made. *)
Theorem boundary_truncation (bo : byte_order) (st : stage) (f : list byte)
    (m : gmap Z Z) (prandom : Z) :
  (data_end f = required_length st f - 1 →
     xdp_lidar_gate bo f m prandom = Some (XDP_PASS, m))
  ∧ (reaches st f → data_end f = required_length st f - 1 →
     xdp_lidar_gate_run bo f m prandom
     = Some (Outcome (short_site st) XDP_PASS m))
  ∧ (reaches st f → data_end f = required_length st f →
     ∃ o, xdp_lidar_gate_run bo f m prandom = Some o
          ∧ (depth (short_site st) < depth (site o))%nat).
Proof.
  pose proof (ip_ihl_range f) as Hihl.
  assert (Hu : udp_offset f = 14 + 4 * ip_ihl f) by reflexivity.
  split; [|split].
  - intros Hlen.
    assert (Hnot : gate_relevant f = false).
    { apply not_gate_relevant_cases.
      destruct st; unfold required_length, sizeof_ethhdr, sizeof_iphdr,
        sizeof_udphdr in Hlen; lia. }
    destruct (run_not_gate_relevant bo f m prandom Hnot) as (s & _ & Hrun).
    unfold xdp_lidar_gate. rewrite Hrun. reflexivity.
  - intros Hreach Hlen. rewrite run_parse. unfold parse.
    destruct st; unfold required_length, sizeof_ethhdr, sizeof_iphdr,
      sizeof_udphdr in Hlen; simpl in Hreach.
    + destruct (data_end f <? 14) eqn:E1; [reflexivity|lia].
    + destruct Hreach as [H14 He]. apply Z.eqb_eq in He. rewrite He.
      destruct (data_end f <? 14) eqn:E1; [lia|]. simpl.
      destruct (data_end f <? 34) eqn:E3; [reflexivity|lia].
    + destruct Hreach as (H34 & He & Hp).
      apply Z.eqb_eq in He. apply Z.eqb_eq in Hp. rewrite He, Hp.
      destruct (data_end f <? 14) eqn:E1; [lia|]. simpl.
      destruct (data_end f <? 34) eqn:E3; [lia|].
      destruct (data_end f <? udp_offset f + 8) eqn:E5; [reflexivity|lia].
  - intros Hreach Hlen. rewrite run_parse. unfold parse.
    destruct st; unfold required_length, sizeof_ethhdr, sizeof_iphdr,
      sizeof_udphdr in Hlen; simpl in Hreach.
    + destruct (data_end f <? 14) eqn:E1; [lia|].
      destruct (negb (ethertype f =? 2048));
        [ends_deeper|].
      destruct (data_end f <? 34) eqn:E3; [|lia].
      ends_deeper.
    + destruct Hreach as [H14 He]. apply Z.eqb_eq in He. rewrite He.
      destruct (data_end f <? 14) eqn:E1; [lia|]. simpl.
      destruct (data_end f <? 34) eqn:E3; [lia|].
      destruct (negb (ip_protocol f =? 17));
        [ends_deeper|].
      destruct (data_end f <? udp_offset f + 8);
        [ends_deeper|].
      destruct (negb (udp_dport f =? 7502));
        [ends_deeper|].
      eexists; split; [reflexivity|]. rewrite gate_decision_depth. simpl. lia.
    + destruct Hreach as (H34 & He & Hp).
      apply Z.eqb_eq in He. apply Z.eqb_eq in Hp. rewrite He, Hp.
      destruct (data_end f <? 14) eqn:E1; [lia|]. simpl.
      destruct (data_end f <? 34) eqn:E3; [lia|].
      destruct (data_end f <? udp_offset f + 8) eqn:E5; [lia|].
      destruct (negb (udp_dport f =? 7502));
        [ends_deeper|].
      eexists; split; [reflexivity|]. rewrite gate_decision_depth. simpl. lia.
Qed.

Lemma boundary_truncation_witness :
  (xdp_lidar_gate LittleEndian (take 13 lidar_frame) (gate_map_of 100 5 7) 0
   = Some (XDP_PASS, gate_map_of 100 5 7)
   ∧ ∃ o, xdp_lidar_gate_run LittleEndian (take 14 lidar_frame)
            (gate_map_of 100 5 7) 0 = Some o
          ∧ (depth (short_site StEthernet) < depth (site o))%nat)
  ∧ (xdp_lidar_gate_run LittleEndian (take 33 lidar_frame) (gate_map_of 100 5 7) 0
     = Some (Outcome (short_site StIPv4) XDP_PASS (gate_map_of 100 5 7))
     ∧ ∃ o, xdp_lidar_gate_run LittleEndian (take 34 lidar_frame)
              (gate_map_of 100 5 7) 0 = Some o
            ∧ (depth (short_site StIPv4) < depth (site o))%nat)
  ∧ (xdp_lidar_gate_run LittleEndian (take 41 lidar_frame) (gate_map_of 100 5 7) 0
     = Some (Outcome (short_site StUdp) XDP_PASS (gate_map_of 100 5 7))
     ∧ ∃ o, xdp_lidar_gate_run LittleEndian (take 42 lidar_frame)
              (gate_map_of 100 5 7) 0 = Some o
            ∧ (depth (short_site StUdp) < depth (site o))%nat).
Proof.
  split; [|split]; split.
  - apply (boundary_truncation LittleEndian StEthernet (take 13 lidar_frame)
             (gate_map_of 100 5 7) 0). reflexivity.
  - apply (boundary_truncation LittleEndian StEthernet (take 14 lidar_frame)
             (gate_map_of 100 5 7) 0); [exact I | reflexivity].
  - apply (boundary_truncation LittleEndian StIPv4 (take 33 lidar_frame)
             (gate_map_of 100 5 7) 0);
      [split; [vm_compute; discriminate | reflexivity] | reflexivity].
  - apply (boundary_truncation LittleEndian StIPv4 (take 34 lidar_frame)
             (gate_map_of 100 5 7) 0);
      [split; [vm_compute; discriminate | reflexivity] | reflexivity].
  - apply (boundary_truncation LittleEndian StUdp (take 41 lidar_frame)
             (gate_map_of 100 5 7) 0);
      [split; [vm_compute; discriminate | split; reflexivity] | reflexivity].
  - apply (boundary_truncation LittleEndian StUdp (take 42 lidar_frame)
             (gate_map_of 100 5 7) 0);
      [split; [vm_compute; discriminate | split; reflexivity] | reflexivity].
Defined.

(** C9 (ihl is not validated): a frame whose [ihl] is below 5 and that gets
    past the UDP bounds check has its destination port read at offset
    14 + 4 * ihl + 2, two bytes that lie inside the fixed IPv4 header
    (offsets 14 to 33), and the comparison of those bytes with 7502 alone
    decides whether the gate is consulted.  [overlay_frame], with
    [ihl = 0], is such a frame: it is counted and dropped when the map
    holds 100 and counted and passed when it holds 0. *)
Theorem ihl_below_5_accepted :
  (∀ (bo : byte_order) (f : list byte) (m : gmap Z Z) (prandom : Z),
     reaches StUdp f → ip_ihl f < 5 → required_length StUdp f <= data_end f →
     let off := sizeof_ethhdr + ip_ihl f * 4 + off_dest in
     sizeof_ethhdr <= off ∧ off + 2 <= sizeof_ethhdr + sizeof_iphdr
     ∧ load_u16 bo f off
       = Some (host16 bo (octet f (Z.to_nat off)) (octet f (S (Z.to_nat off))))
     ∧ xdp_lidar_gate_run bo f m prandom
       = Some (if be16 f (Z.to_nat off) =? 7502
               then gate_decision m prandom
               else Outcome RetOtherPort XDP_PASS m))
  ∧ ip_ihl overlay_frame = 0
  ∧ gate_relevant overlay_frame = true
  ∧ (∀ (bo : byte_order) (prandom : Z),
       xdp_lidar_gate bo overlay_frame (gate_map_of 100 5 7) prandom
       = Some (XDP_DROP, gate_map_of 100 5 8))
  ∧ (∀ (bo : byte_order) (prandom : Z),
       xdp_lidar_gate bo overlay_frame (gate_map_of 0 5 7) prandom
       = Some (XDP_PASS, gate_map_of 0 6 7)).
Proof.
  split; [|split; [reflexivity | split; [reflexivity | split]]].
  - intros bo f m prandom (H34 & He & Hp) Hihl Hlen off.
    pose proof (ip_ihl_range f) as Hr.
    unfold required_length, sizeof_ethhdr, sizeof_udphdr in Hlen.
    subst off. unfold sizeof_ethhdr, sizeof_iphdr, off_dest.
    split; [lia|]. split; [lia|]. split.
    + apply load_u16_inside; lia.
    + rewrite run_parse. unfold parse.
      apply Z.eqb_eq in He. apply Z.eqb_eq in Hp. rewrite He, Hp.
      destruct (data_end f <? 14) eqn:E1; [lia|]. simpl.
      destruct (data_end f <? 34) eqn:E3; [lia|].
      destruct (data_end f <? udp_offset f + 8) eqn:E5;
        [unfold udp_offset in E5; lia|].
      replace (14 + ip_ihl f * 4 + 2) with (udp_offset f + 2)
        by (unfold udp_offset; lia).
      change (be16 f (Z.to_nat (udp_offset f + 2))) with (udp_dport f).
      destruct (udp_dport f =? 7502); reflexivity.
  - intros bo prandom. unfold xdp_lidar_gate.
    rewrite run_gate_relevant by reflexivity.
    rewrite (gate_decision_drop _ prandom 100)
      by (reflexivity || (pose proof (draw_range prandom); lia)).
    reflexivity.
  - intros bo prandom. unfold xdp_lidar_gate.
    rewrite run_gate_relevant by reflexivity.
    rewrite gate_decision_open by (right; reflexivity).
    reflexivity.
Qed.

Lemma ihl_below_5_accepted_witness :
  let off := sizeof_ethhdr + ip_ihl overlay_frame * 4 + off_dest in
  sizeof_ethhdr <= off ∧ off + 2 <= sizeof_ethhdr + sizeof_iphdr
  ∧ load_u16 LittleEndian overlay_frame off
    = Some (host16 LittleEndian (octet overlay_frame (Z.to_nat off))
              (octet overlay_frame (S (Z.to_nat off))))
  ∧ xdp_lidar_gate_run LittleEndian overlay_frame (gate_map_of 100 5 7) 3
    = Some (if be16 overlay_frame (Z.to_nat off) =? 7502
            then gate_decision (gate_map_of 100 5 7) 3
            else Outcome RetOtherPort XDP_PASS (gate_map_of 100 5 7)).
Proof.
  apply (proj1 ihl_below_5_accepted LittleEndian overlay_frame
           (gate_map_of 100 5 7) 3).
  - split; [vm_compute; discriminate | split; reflexivity].
  - reflexivity.
  - vm_compute. discriminate.
Defined.

(** C7 (what one call does to the map), as the program has it: every call
    returns, leaves key 0 unchanged, and leaves each of the counters at
    keys 1 and 2 either unchanged or replaced by its successor as a 64-bit
    value, [(v + 1) mod 2^64].  A counter below the largest 64-bit value
    therefore never decreases and changes by 0 or +1. *)
Theorem counters_step_modulo_2_64 (bo : byte_order) (f : list byte)
    (m : gmap Z Z) (prandom : Z) :
  ∃ a m', xdp_lidar_gate bo f m prandom = Some (a, m')
    ∧ m' !! KEY_PCT = m !! KEY_PCT
    ∧ ∀ k, k = KEY_PASS ∨ k = KEY_DROP →
        (m' !! k = m !! k
         ∨ ∃ v, m !! k = Some v ∧ m' !! k = Some (u64 (v + 1)))
        ∧ ∀ v, m !! k = Some v → 0 <= v < U64_MAX →
               m' !! k = Some v ∨ m' !! k = Some (v + 1).
Proof.
  assert (Hcnt : ∀ key k, key = KEY_PASS ∨ key = KEY_DROP →
            count_packet m key !! KEY_PCT = m !! KEY_PCT
            ∧ ((count_packet m key !! k = m !! k
                ∨ ∃ v, m !! k = Some v
                       ∧ count_packet m key !! k = Some (u64 (v + 1)))
               ∧ ∀ v, m !! k = Some v → 0 <= v < U64_MAX →
                      count_packet m key !! k = Some v
                      ∨ count_packet m key !! k = Some (v + 1))).
  { intros key k Hkey. split.
    - apply count_packet_other. destruct Hkey as [-> | ->]; discriminate.
    - destruct (decide (key = k)) as [->|Hne].
      + rewrite count_packet_same. split.
        * destruct (m !! k) as [v|]; [right; eauto | left; reflexivity].
        * intros v Hv Hrange. rewrite Hv. simpl.
          rewrite (u64_succ v Hrange). right. reflexivity.
      + rewrite (count_packet_other m key k Hne). split.
        * left. reflexivity.
        * intros v Hv _. left. exact Hv. }
  unfold xdp_lidar_gate. rewrite run_parse.
  destruct (parse f) as [s|].
  - exists XDP_PASS, m. split; [reflexivity|]. split; [reflexivity|].
    intros k _. split; [left; reflexivity | intros v Hv _; left; exact Hv].
  - unfold gate_decision.
    destruct (bpf_map_lookup_elem m KEY_PCT) as [pct|];
      [destruct (pct =? 0); [|destruct (draw prandom <? pct)]|];
      simpl; eexists _, _; (split; [reflexivity|]);
      (split; [apply (Hcnt _ 0); auto | intros k _; apply Hcnt; auto]).
Qed.

Lemma counters_step_modulo_2_64_witness :
  ∃ a m', xdp_lidar_gate LittleEndian lidar_frame (gate_map_of 50 5 7) 1234
          = Some (a, m')
    ∧ m' !! KEY_PCT = gate_map_of 50 5 7 !! KEY_PCT
    ∧ ∀ k, k = KEY_PASS ∨ k = KEY_DROP →
        (m' !! k = gate_map_of 50 5 7 !! k
         ∨ ∃ v, gate_map_of 50 5 7 !! k = Some v ∧ m' !! k = Some (u64 (v + 1)))
        ∧ ∀ v, gate_map_of 50 5 7 !! k = Some v → 0 <= v < U64_MAX →
               m' !! k = Some v ∨ m' !! k = Some (v + 1).
Proof.
  exact (counters_step_modulo_2_64 LittleEndian lidar_frame
           (gate_map_of 50 5 7) 1234).
Defined.

(** C7 fails as stated: with the passed counter at the largest 64-bit
    value and the gate open, one call on [lidar_frame] takes the counter
    from 18446744073709551615 to 0, a decrease, and not a change by 0 or
    +1. *)
Lemma passed_count_wraps_to_zero :
  gate_map_of 0 18446744073709551615 7 !! KEY_PASS = Some 18446744073709551615
  ∧ xdp_lidar_gate LittleEndian lidar_frame
      (gate_map_of 0 18446744073709551615 7) 0
    = Some (XDP_PASS, gate_map_of 0 0 7)
  ∧ gate_map_of 0 0 7 !! KEY_PASS = Some 0
  ∧ 0 < 18446744073709551615
  ∧ 0 ≠ 18446744073709551615 + 1.
Proof.
  split; [reflexivity|]. split; [vm_compute; reflexivity|].
  split; [reflexivity|]. split; [reflexivity | discriminate].
Qed.

(** ** The distribution of the draw *)

Lemma draws_to_succ (r : Z) (k : N) :
  draws_to r (N.succ k)
  = if draw (Z.of_N k) =? r then N.succ (draws_to r k) else draws_to r k.
Proof. unfold draws_to. rewrite N.peano_rect_succ. reflexivity. Qed.

Lemma draw_u32 (x : Z) : 0 <= x < 2 ^ 32 → draw x = x mod 100.
Proof. intros Hx. unfold draw, u32. rewrite (Z.mod_small x) by lia. reflexivity. Qed.

(** Among the first [n] values of the helper, [n / 100] reduce to [r], and
    one more when [r] is below [n mod 100]. *)
Lemma draws_to_closed_form (r : Z) (n : N) :
  0 <= r < 100 → (n <= 4294967296)%N →
  Z.of_N (draws_to r n)
  = Z.of_N n / 100 + (if r <? Z.of_N n mod 100 then 1 else 0).
Proof.
  intros Hr. induction n as [|k IH] using N.peano_ind; intros Hn.
  - change (Z.of_N 0 mod 100) with 0. change (Z.of_N 0 / 100) with 0.
    destruct (r <? 0) eqn:E; [lia | reflexivity].
  - rewrite draws_to_succ, draw_u32 by lia.
    assert (Hk : (k <= 4294967296)%N) by lia. specialize (IH Hk).
    rewrite N2Z.inj_succ.
    destruct (Z.of_N k mod 100 =? r) eqn:E;
      [rewrite N2Z.inj_succ|]; rewrite IH; clear IH;
      destruct (r <? Z.of_N k mod 100) eqn:E1,
               (r <? Z.succ (Z.of_N k) mod 100) eqn:E2;
      Z.div_mod_to_equations; lia.
Qed.

(** C6 (distribution of the draw), as the program has it: the draw always
    lies in [0,100), but the 2^32 equally likely values of the helper do
    not spread evenly over the 100 residues: 42949673 of them reduce to each
    residue from 0 to 95 and 42949672 to each residue from 96 to 99. *)
Theorem draw_nearly_uniform (r : Z) :
  0 <= r < 100 →
  (∀ prandom, 0 <= draw prandom < 100)
  ∧ draws_to r 4294967296
    = (if r <? 96 then 42949673%N else 42949672%N).
Proof.
  intros Hr. split; [exact draw_range|].
  apply N2Z.inj. rewrite draws_to_closed_form by lia.
  change (Z.of_N 4294967296 / 100) with 42949672.
  change (Z.of_N 4294967296 mod 100) with 96.
  destruct (r <? 96); reflexivity.
Qed.

Lemma draw_nearly_uniform_witness :
  (∀ prandom, 0 <= draw prandom < 100)
  ∧ draws_to 97 4294967296 = (if 97 <? 96 then 42949673%N else 42949672%N).
Proof. apply (draw_nearly_uniform 97). lia. Defined.

(** C6 fails as stated: residue 0 is drawn from one more value of the
    32-bit helper than residue 99, so the two are not equally likely. *)
Lemma draw_not_uniform :
  draws_to 0 4294967296 = 42949673%N
  ∧ draws_to 99 4294967296 = 42949672%N
  ∧ draws_to 0 4294967296 ≠ draws_to 99 4294967296.
Proof.
  assert (H0 : draws_to 0 4294967296 = 42949673%N).
  { apply N2Z.inj. rewrite draws_to_closed_form by lia. reflexivity. }
  assert (H99 : draws_to 99 4294967296 = 42949672%N).
  { apply N2Z.inj. rewrite draws_to_closed_form by lia. reflexivity. }
  split; [exact H0|]. split; [exact H99|].
  rewrite H0, H99. discriminate.
Qed.

(** ** Further properties of the program *)

(** Every run ends in one of three ways: the frame is not gate-relevant and
    is passed with the map untouched; it is gate-relevant and passed, and
    counted under key 1; it is gate-relevant and dropped, and counted under
    key 2. *)
Lemma gate_cases (bo : byte_order) (f : list byte) (m : gmap Z Z)
    (prandom : Z) :
  (gate_relevant f = false
   ∧ xdp_lidar_gate bo f m prandom = Some (XDP_PASS, m))
  ∨ (gate_relevant f = true
     ∧ xdp_lidar_gate bo f m prandom = Some (XDP_PASS, count_packet m KEY_PASS)
     ∧ (m !! KEY_PCT = None
        ∨ ∃ pct, m !! KEY_PCT = Some pct ∧ ¬ draw prandom < pct))
  ∨ (gate_relevant f = true
     ∧ xdp_lidar_gate bo f m prandom = Some (XDP_DROP, count_packet m KEY_DROP)
     ∧ ∃ pct, m !! KEY_PCT = Some pct ∧ draw prandom < pct).
Proof.
  pose proof (draw_range prandom) as Hd.
  destruct (gate_relevant f) eqn:Hrel.
  - right. unfold xdp_lidar_gate.
    rewrite (run_gate_relevant bo f m prandom Hrel).
    destruct (m !! KEY_PCT) as [pct|] eqn:Hpct.
    + destruct (Z.eq_dec pct 0) as [-> | Hnz].
      * left. rewrite gate_decision_open by (right; exact Hpct).
        split; [reflexivity|]. split; [reflexivity|].
        right. exists 0. split; [reflexivity | lia].
      * destruct (Z_lt_dec (draw prandom) pct) as [Hlt | Hge].
        -- right. rewrite (gate_decision_drop m prandom pct Hpct Hlt).
           split; [reflexivity|]. split; [reflexivity|]. eauto.
        -- left. rewrite (gate_decision_pass m prandom pct Hpct Hnz) by lia.
           split; [reflexivity|]. split; [reflexivity|]. eauto.
    + left. rewrite gate_decision_open by (left; exact Hpct).
      split; [reflexivity|]. split; [reflexivity|]. left. reflexivity.
  - left. split; [reflexivity|].
    destruct (run_not_gate_relevant bo f m prandom Hrel) as (s & _ & Hrun).
    unfold xdp_lidar_gate. rewrite Hrun. reflexivity.
Qed.

(** X1 (when a frame is dropped): the program returns [XDP_DROP] exactly
    when the frame is gate-relevant and key 0 of the map holds a value above
    the draw, [prandom mod 100]. *)
Theorem dropped_iff (bo : byte_order) (f : list byte) (m : gmap Z Z)
    (prandom : Z) :
  (∃ m', xdp_lidar_gate bo f m prandom = Some (XDP_DROP, m'))
  ↔ gate_relevant f = true
    ∧ ∃ pct, m !! KEY_PCT = Some pct ∧ draw prandom < pct.
Proof.
  destruct (gate_cases bo f m prandom)
    as [(Hrel & Hrun) | [(Hrel & Hrun & Hwhy) | (Hrel & Hrun & Hwhy)]];
    rewrite Hrun; split.
  - intros [m' [=]].
  - intros [Hyes _]. congruence.
  - intros [m' [=]].
  - intros [_ (pct & Hpct & Hlt)].
    destruct Hwhy as [Hnone | (pct' & Hpct' & Hge)]; [congruence|].
    assert (pct' = pct) by congruence. subst pct'. contradiction.
  - intros _. split; [exact Hrel | exact Hwhy].
  - intros _. eexists. reflexivity.
Qed.

Lemma dropped_iff_witness :
  ∃ m', xdp_lidar_gate LittleEndian lidar_frame (gate_map_of 50 5 7) 1234
        = Some (XDP_DROP, m').
Proof.
  apply (dropped_iff LittleEndian lidar_frame (gate_map_of 50 5 7) 1234).
  split; [reflexivity|]. exists 50. split; [reflexivity|].
  vm_compute. reflexivity.
Defined.

(** X2 (the draw is not below the percentage): for a gate-relevant frame,
    when key 0 holds a value other than 0 that the draw is not below, the
    program returns [XDP_PASS], the passed counter at key 1 goes from [v]
    to [v + 1] as a 64-bit value, and no other key changes. *)
Theorem gate_draw_not_below_passes (bo : byte_order) (f : list byte)
    (m : gmap Z Z) (prandom pct v : Z) :
  gate_relevant f = true →
  m !! KEY_PCT = Some pct → pct ≠ 0 → pct <= draw prandom →
  m !! KEY_PASS = Some v →
  ∃ m', xdp_lidar_gate bo f m prandom = Some (XDP_PASS, m')
        ∧ m' !! KEY_PASS = Some (u64 (v + 1))
        ∧ (0 <= v < U64_MAX → m' !! KEY_PASS = Some (v + 1))
        ∧ ∀ k, k ≠ KEY_PASS → m' !! k = m !! k.
Proof.
  intros Hrel Hpct Hnz Hge Hpass. exists (count_packet m KEY_PASS).
  unfold xdp_lidar_gate.
  rewrite (run_gate_relevant bo f m prandom Hrel),
    (gate_decision_pass m prandom pct Hpct Hnz Hge).
  split; [reflexivity|]. apply (count_packet_effect m KEY_PASS v Hpass).
Qed.

Lemma gate_draw_not_below_passes_witness :
  ∃ m', xdp_lidar_gate BigEndian lidar_frame (gate_map_of 50 5 7) 1250
        = Some (XDP_PASS, m')
        ∧ m' !! KEY_PASS = Some (u64 (5 + 1))
        ∧ (0 <= 5 < U64_MAX → m' !! KEY_PASS = Some (5 + 1))
        ∧ ∀ k, k ≠ KEY_PASS → m' !! k = gate_map_of 50 5 7 !! k.
Proof.
  apply (gate_draw_not_below_passes BigEndian lidar_frame (gate_map_of 50 5 7)
           1250 50 5).
  - reflexivity.
  - reflexivity.
  - discriminate.
  - vm_compute. discriminate.
  - reflexivity.
Defined.

(** X3 (host byte order): the program built for a little-endian host and
    the program built for a big-endian host end at the same [return] with
    the same verdict and the same map, on every frame. *)
Theorem byte_order_irrelevant (f : list byte) (m : gmap Z Z) (prandom : Z) :
  xdp_lidar_gate_run LittleEndian f m prandom
  = xdp_lidar_gate_run BigEndian f m prandom.
Proof. rewrite !run_parse. reflexivity. Qed.

(** ** What the program reads of a frame *)

Lemma octet_app_l (a b : list byte) (i : nat) :
  (i < length a)%nat → octet (a ++ b) i = octet a i.
Proof. intros Hi. unfold octet. rewrite app_nth1 by exact Hi. reflexivity. Qed.

Lemma octet_app_r (a b : list byte) (i : nat) :
  octet (a ++ b) (length a + i) = octet b i.
Proof.
  unfold octet. rewrite app_nth2 by lia.
  replace (length a + i - length a)%nat with i by lia. reflexivity.
Qed.

(** [parse] looks at the length of the frame and at six of its octets. *)
Lemma parse_ext (f1 f2 : list byte) :
  data_end f1 = data_end f2 →
  ethertype f1 = ethertype f2 →
  ip_protocol f1 = ip_protocol f2 →
  ip_ihl f1 = ip_ihl f2 →
  udp_dport f1 = udp_dport f2 →
  parse f1 = parse f2.
Proof.
  intros Hd He Hp Hi Hu. unfold parse, udp_offset.
  rewrite Hd, He, Hp, Hi, Hu. reflexivity.
Qed.

(** X4 (bytes the program does not look at): two frames of the same
    length that agree on octets 12, 13 (ethertype) and 23 (protocol), on
    the low nibble of octet 14 (ihl) and on the two octets at offset
    14 + 4 * ihl + 2 (destination port) end at the same [return] with the
    same verdict and the same map.  Addresses, the IP version, fragment
    fields, checksums, the source port and the payload play no part. *)
Theorem only_six_octets_matter (bo : byte_order) (f1 f2 : list byte)
    (m : gmap Z Z) (prandom : Z) :
  length f1 = length f2 →
  octet f1 12 = octet f2 12 → octet f1 13 = octet f2 13 →
  octet f1 23 = octet f2 23 →
  octet f1 14 mod 16 = octet f2 14 mod 16 →
  (∀ i : nat, i = Z.to_nat (14 + 4 * (octet f1 14 mod 16) + 2)
              ∨ i = S (Z.to_nat (14 + 4 * (octet f1 14 mod 16) + 2)) →
              octet f1 i = octet f2 i) →
  xdp_lidar_gate_run bo f1 m prandom = xdp_lidar_gate_run bo f2 m prandom.
Proof.
  intros Hlen H12 H13 H23 H14 Hport. rewrite !run_parse.
  rewrite (parse_ext f1 f2); [reflexivity | | | | |].
  - unfold data_end. rewrite Hlen. reflexivity.
  - unfold ethertype, be16. rewrite H12, H13. reflexivity.
  - exact H23.
  - exact H14.
  - unfold udp_dport, udp_offset, ip_ihl, be16. rewrite <- H14.
    rewrite (Hport _ (or_introl eq_refl)), (Hport _ (or_intror eq_refl)).
    reflexivity.
Qed.

Lemma only_six_octets_matter_witness :
  xdp_lidar_gate_run LittleEndian lidar_frame (gate_map_of 50 5 7) 1234
  = xdp_lidar_gate_run LittleEndian
      [ xff; xff; xff; xff; xff; xff;  x0e; x0e; x0e; x0e; x0e; x0e;  x08; x00;
        x65; x10; xff; xff; x12; x34; x20; x07; x01; x11; xab; xcd;
        xc0; xa8; x01; x01;  xc0; xa8; x01; x02;
        x00; x35; x1d; x4e; xff; xff; xde; xad ]
      (gate_map_of 50 5 7) 1234.
Proof.
  apply only_six_octets_matter; try reflexivity.
  intros i [-> | ->]; reflexivity.
Defined.

(** X5 (bytes behind the UDP header): once a frame is long enough for the
    three bounds checks, bytes appended to it change nothing: same
    [return], same verdict, same map. *)
Theorem trailing_bytes_ignored (bo : byte_order) (f extra : list byte)
    (m : gmap Z Z) (prandom : Z) :
  long_enough f = true →
  xdp_lidar_gate_run bo (f ++ extra) m prandom
  = xdp_lidar_gate_run bo f m prandom.
Proof.
  intros Hlong. unfold long_enough in Hlong.
  apply andb_true_iff in Hlong as [Hlong H3].
  apply andb_true_iff in Hlong as [H1 H2].
  apply Z.leb_le in H1, H2, H3.
  pose proof (udp_offset_range f) as Hoff.
  assert (Hoct : ∀ i : nat, (i < length f)%nat → octet (f ++ extra) i = octet f i)
    by (intros i Hi; apply octet_app_l; exact Hi).
  assert (Hdf : data_end f = Z.of_nat (length f)) by reflexivity.
  assert (He : ethertype (f ++ extra) = ethertype f)
    by (unfold ethertype, be16; rewrite !Hoct by lia; reflexivity).
  assert (Hp : ip_protocol (f ++ extra) = ip_protocol f)
    by (unfold ip_protocol; rewrite Hoct by lia; reflexivity).
  assert (Hi : ip_ihl (f ++ extra) = ip_ihl f)
    by (unfold ip_ihl; rewrite Hoct by lia; reflexivity).
  assert (Hu : udp_offset (f ++ extra) = udp_offset f)
    by (unfold udp_offset; rewrite Hi; reflexivity).
  assert (Hd : udp_dport (f ++ extra) = udp_dport f)
    by (unfold udp_dport, be16; rewrite Hu, !Hoct by lia; reflexivity).
  assert (Hlen : data_end (f ++ extra) = data_end f + data_end extra)
    by (unfold data_end; rewrite length_app; lia).
  assert (0 <= data_end extra) by (unfold data_end; lia).
  rewrite !run_parse. unfold parse. rewrite He, Hp, Hu, Hd, Hlen.
  destruct (data_end f + data_end extra <? 14) eqn:E1; [lia|].
  destruct (data_end f <? 14) eqn:E1'; [lia|].
  destruct (negb (ethertype f =? 2048)); [reflexivity|].
  destruct (data_end f + data_end extra <? 34) eqn:E2; [lia|].
  destruct (data_end f <? 34) eqn:E2'; [lia|].
  destruct (negb (ip_protocol f =? 17)); [reflexivity|].
  destruct (data_end f + data_end extra <? udp_offset f + 8) eqn:E3; [lia|].
  destruct (data_end f <? udp_offset f + 8) eqn:E3'; [lia|].
  reflexivity.
Qed.

Lemma trailing_bytes_ignored_witness :
  xdp_lidar_gate_run BigEndian (lidar_frame ++ [xca; xfe; xba; xbe])
    (gate_map_of 50 5 7) 1234
  = xdp_lidar_gate_run BigEndian lidar_frame (gate_map_of 50 5 7) 1234.
Proof.
  apply (trailing_bytes_ignored BigEndian lidar_frame [xca; xfe; xba; xbe]
           (gate_map_of 50 5 7) 1234).
  reflexivity.
Defined.

(** X6 (IPv4 options are skipped): for a frame made of a 14-byte Ethernet
    header of type 0x0800, an IPv4 header of [4 * ihl] bytes
    ([5 <= ihl <= 15], so with up to 40 bytes of options) announcing that
    [ihl] and protocol 17, an 8-byte UDP header and any payload, the
    program compares the destination port of that UDP header with 7502:
    equal, the gate decides; different, the frame is passed at the port
    check with the map untouched. *)
Theorem layered_frame_port_found (bo : byte_order)
    (eth ip udp payload : list byte) (ihl : Z) (m : gmap Z Z) (prandom : Z) :
  length eth = 14%nat → ethertype eth = 2048 →
  5 <= ihl <= 15 → Z.of_nat (length ip) = 4 * ihl →
  octet ip 0 mod 16 = ihl → octet ip 9 = 17 →
  length udp = 8%nat →
  xdp_lidar_gate_run bo (eth ++ ip ++ udp ++ payload) m prandom
  = Some (if be16 udp 2 =? 7502
          then gate_decision m prandom
          else Outcome RetOtherPort XDP_PASS m).
Proof.
  intros Heth Htype Hihl Hip Hnib Hproto Hudp.
  set (f := eth ++ ip ++ udp ++ payload).
  assert (Hlen : data_end f = 14 + 4 * ihl + 8 + Z.of_nat (length payload)).
  { unfold data_end, f. rewrite !length_app. lia. }
  assert (He : ethertype f = 2048).
  { rewrite <- Htype. unfold ethertype, be16, f.
    rewrite !octet_app_l by lia. reflexivity. }
  assert (Hin_ip : ∀ i : nat, (i < length ip)%nat →
                              octet f (14 + i) = octet ip i).
  { intros i Hi. unfold f. rewrite <- Heth, octet_app_r.
    apply octet_app_l. exact Hi. }
  assert (Hin_udp : ∀ i : nat, (i < 8)%nat →
                               octet f (14 + (length ip + i)) = octet udp i).
  { intros i Hi. unfold f. rewrite <- Heth, !octet_app_r.
    apply octet_app_l. lia. }
  assert (Hi : ip_ihl f = ihl).
  { unfold ip_ihl. rewrite <- Hnib, <- (Hin_ip 0%nat) by lia. reflexivity. }
  assert (Hp : ip_protocol f = 17).
  { unfold ip_protocol. rewrite <- Hproto, <- (Hin_ip 9%nat) by lia.
    reflexivity. }
  assert (Hoff : udp_offset f = 14 + 4 * ihl)
    by (unfold udp_offset; rewrite Hi; reflexivity).
  assert (Hd : udp_dport f = be16 udp 2).
  { unfold udp_dport, be16. rewrite Hoff.
    replace (Z.to_nat (14 + 4 * ihl + 2)) with (14 + (length ip + 2))%nat by lia.
    replace (S (14 + (length ip + 2))) with (14 + (length ip + 3))%nat by lia.
    rewrite !Hin_udp by lia. reflexivity. }
  rewrite run_parse. unfold parse. rewrite He, Hp, Hoff, Hd, Hlen. simpl.
  destruct (14 + 4 * ihl + 8 + Z.of_nat (length payload) <? 14) eqn:E1; [lia|].
  destruct (14 + 4 * ihl + 8 + Z.of_nat (length payload) <? 34) eqn:E2; [lia|].
  destruct (14 + 4 * ihl + 8 + Z.of_nat (length payload) <? 14 + 4 * ihl + 8)
    eqn:E3; [lia|].
  destruct (be16 udp 2 =? 7502); reflexivity.
Qed.

Lemma layered_frame_port_found_witness :
  xdp_lidar_gate_run LittleEndian
    (sample_eth ++ sample_ip_options ++ sample_udp ++ sample_payload)
    (gate_map_of 50 5 7) 1234
  = Some (if be16 sample_udp 2 =? 7502
          then gate_decision (gate_map_of 50 5 7) 1234
          else Outcome RetOtherPort XDP_PASS (gate_map_of 50 5 7)).
Proof.
  apply (layered_frame_port_found LittleEndian sample_eth sample_ip_options
           sample_udp sample_payload 6 (gate_map_of 50 5 7) 1234);
    try reflexivity.
  lia.
Defined.

(** ** What the program does to the map *)

Lemma count_packet_dom (m : gmap Z Z) (key : Z) :
  dom (count_packet m key) = dom m.
Proof.
  unfold count_packet, bpf_map_lookup_elem, sync_fetch_and_add.
  destruct (m !! key) as [v|] eqn:Hk; [|reflexivity].
  apply dom_insert_lookup_L. rewrite Hk. eauto.
Qed.

(** X7 (keys of the map): a run neither adds a key to the map nor removes
    one, and it writes no key other than 1 and 2: key 0, key 3 and any
    other key hold afterwards what they held before. *)
Theorem map_keys_preserved (bo : byte_order) (f : list byte) (m : gmap Z Z)
    (prandom : Z) :
  ∃ a m', xdp_lidar_gate bo f m prandom = Some (a, m')
    ∧ dom m' = dom m
    ∧ ∀ k, k ≠ KEY_PASS → k ≠ KEY_DROP → m' !! k = m !! k.
Proof.
  destruct (gate_cases bo f m prandom)
    as [(_ & Hrun) | [(_ & Hrun & _) | (_ & Hrun & _)]];
    rewrite Hrun; eexists _, _; (split; [reflexivity|]).
  - split; [reflexivity | intros; reflexivity].
  - split; [apply count_packet_dom|].
    intros k Hp _. apply count_packet_other. congruence.
  - split; [apply count_packet_dom|].
    intros k _ Hd. apply count_packet_other. congruence.
Qed.

Lemma map_keys_preserved_witness :
  ∃ a m', xdp_lidar_gate LittleEndian lidar_frame (gate_map_of 50 5 7) 1234
          = Some (a, m')
    ∧ dom m' = dom (gate_map_of 50 5 7)
    ∧ ∀ k, k ≠ KEY_PASS → k ≠ KEY_DROP → m' !! k = gate_map_of 50 5 7 !! k.
Proof.
  exact (map_keys_preserved LittleEndian lidar_frame (gate_map_of 50 5 7) 1234).
Defined.

(** X8 (missing counter slot): when the lookup of the counter that belongs
    to the verdict finds nothing (key 1 for [XDP_PASS], key 2 for
    [XDP_DROP]), the program still returns that verdict and leaves the map
    exactly as it was. *)
Theorem missing_counter_skipped (bo : byte_order) (f : list byte)
    (m m' : gmap Z Z) (prandom : Z) (a : xdp_action) :
  xdp_lidar_gate bo f m prandom = Some (a, m') →
  (a = XDP_PASS → m !! KEY_PASS = None → m' = m)
  ∧ (a = XDP_DROP → m !! KEY_DROP = None → m' = m).
Proof.
  assert (Hskip : ∀ key, m !! key = None → count_packet m key = m).
  { intros key Hk. unfold count_packet, bpf_map_lookup_elem.
    rewrite Hk. reflexivity. }
  destruct (gate_cases bo f m prandom)
    as [(_ & Hrun) | [(_ & Hrun & _) | (_ & Hrun & _)]];
    rewrite Hrun; intros [= <- <-]; split; intros Ha Hnone;
    try discriminate Ha; try reflexivity; apply Hskip; exact Hnone.
Qed.

Lemma missing_counter_skipped_witness :
  (XDP_DROP = XDP_PASS → ({[ 0 := 100 ]} : gmap Z Z) !! KEY_PASS = None →
   ({[ 0 := 100 ]} : gmap Z Z) = {[ 0 := 100 ]})
  ∧ (XDP_DROP = XDP_DROP → ({[ 0 := 100 ]} : gmap Z Z) !! KEY_DROP = None →
     ({[ 0 := 100 ]} : gmap Z Z) = {[ 0 := 100 ]}).
Proof.
  apply (missing_counter_skipped LittleEndian lidar_frame
           {[ 0 := 100 ]} {[ 0 := 100 ]} 7 XDP_DROP).
  vm_compute. reflexivity.
Defined.

(** X9 (each gate-relevant frame is counted once): for a gate-relevant
    frame and a map whose two counters are below the largest 64-bit value,
    one run raises the sum of the two counters by exactly 1: the dropped
    counter when the verdict is [XDP_DROP], the passed counter when it is
    [XDP_PASS], and the other counter keeps its value. *)
Theorem relevant_frame_counted_once (bo : byte_order) (f : list byte)
    (m : gmap Z Z) (prandom p d : Z) :
  gate_relevant f = true →
  m !! KEY_PASS = Some p → m !! KEY_DROP = Some d →
  0 <= p < U64_MAX → 0 <= d < U64_MAX →
  ∃ a m' p' d',
    xdp_lidar_gate bo f m prandom = Some (a, m')
    ∧ m' !! KEY_PASS = Some p' ∧ m' !! KEY_DROP = Some d'
    ∧ p' + d' = p + d + 1
    ∧ (a = XDP_DROP → p' = p ∧ d' = d + 1)
    ∧ (a = XDP_PASS → p' = p + 1 ∧ d' = d).
Proof.
  intros Hrel Hp Hd Hpr Hdr.
  destruct (count_packet_effect m KEY_PASS p Hp) as (_ & HP & HPrest).
  destruct (count_packet_effect m KEY_DROP d Hd) as (_ & HD & HDrest).
  destruct (gate_cases bo f m prandom)
    as [(Hno & _) | [(_ & Hrun & _) | (_ & Hrun & _)]]; [congruence | |].
  - exists XDP_PASS, (count_packet m KEY_PASS), (p + 1), d.
    split; [exact Hrun|]. split; [exact (HP Hpr)|].
    split; [rewrite HPrest by discriminate; exact Hd|].
    split; [lia|]. split; [discriminate | intros _; split; reflexivity].
  - exists XDP_DROP, (count_packet m KEY_DROP), p, (d + 1).
    split; [exact Hrun|].
    split; [rewrite HDrest by discriminate; exact Hp|].
    split; [exact (HD Hdr)|].
    split; [lia|]. split; [intros _; split; reflexivity | discriminate].
Qed.

Lemma relevant_frame_counted_once_witness :
  ∃ a m' p' d',
    xdp_lidar_gate LittleEndian lidar_frame (gate_map_of 50 5 7) 1234
    = Some (a, m')
    ∧ m' !! KEY_PASS = Some p' ∧ m' !! KEY_DROP = Some d'
    ∧ p' + d' = 5 + 7 + 1
    ∧ (a = XDP_DROP → p' = 5 ∧ d' = 7 + 1)
    ∧ (a = XDP_PASS → p' = 5 + 1 ∧ d' = 7).
Proof.
  apply (relevant_frame_counted_once LittleEndian lidar_frame
           (gate_map_of 50 5 7) 1234 5 7);
    try reflexivity; vm_compute; split; congruence.
Defined.

(** ** How often the gate drops *)

Lemma gate_decision_is_drop (m : gmap Z Z) (prandom pct : Z) :
  m !! KEY_PCT = Some pct →
  is_drop (action (gate_decision m prandom)) = (draw prandom <? pct).
Proof.
  intros Hpct. pose proof (draw_range prandom) as Hd.
  unfold gate_decision, bpf_map_lookup_elem. rewrite Hpct.
  destruct (pct =? 0) eqn:E0.
  - apply Z.eqb_eq in E0. subst pct. simpl.
    destruct (draw prandom <? 0) eqn:E; [lia | reflexivity].
  - destruct (draw prandom <? pct); reflexivity.
Qed.

Lemma drops_among_succ (m : gmap Z Z) (k : N) :
  drops_among m (N.succ k)
  = if is_drop (action (gate_decision m (Z.of_N k)))
    then N.succ (drops_among m k) else drops_among m k.
Proof. unfold drops_among. rewrite N.peano_rect_succ. reflexivity. Qed.

(** Among the first [n] values of the helper, each full block of 100
    values holds [pct] that drop, and the rest of [n mod 100] values holds
    [pct] of them at most. *)
Lemma drops_among_closed_form (m : gmap Z Z) (pct : Z) (n : N) :
  m !! KEY_PCT = Some pct → 0 <= pct <= 100 → (n <= 4294967296)%N →
  Z.of_N (drops_among m n)
  = Z.of_N n / 100 * pct + Z.min (Z.of_N n mod 100) pct.
Proof.
  intros Hpct Hr. induction n as [|k IH] using N.peano_ind; intros Hn.
  - change (Z.of_N 0 mod 100) with 0. change (Z.of_N 0 / 100) with 0.
    change (Z.of_N (drops_among m 0)) with 0. lia.
  - rewrite drops_among_succ, (gate_decision_is_drop m _ pct Hpct),
      draw_u32 by lia.
    assert (Hk : (k <= 4294967296)%N) by lia. specialize (IH Hk).
    rewrite N2Z.inj_succ.
    assert (Hcase :
      (Z.of_N k mod 100 = 99 ∧ Z.succ (Z.of_N k) mod 100 = 0
       ∧ Z.succ (Z.of_N k) / 100 = Z.of_N k / 100 + 1)
      ∨ (Z.of_N k mod 100 < 99
         ∧ Z.succ (Z.of_N k) mod 100 = Z.of_N k mod 100 + 1
         ∧ Z.succ (Z.of_N k) / 100 = Z.of_N k / 100))
      by (Z.div_mod_to_equations; lia).
    pose proof (Z.mod_pos_bound (Z.of_N k) 100) as Hm.
    destruct Hcase as [(H99 & -> & ->) | (Hlt & -> & ->)];
      destruct (Z.of_N k mod 100 <? pct) eqn:E;
      [rewrite N2Z.inj_succ | | rewrite N2Z.inj_succ |]; rewrite IH; lia.
Qed.

(** X10 (how many draws drop): with a drop percentage [pct] between 0 and
    100 at key 0, the gate decision drops on exactly
    [42949672 * pct + min pct 96] of the 2^32 values the random helper can
    return: none at 0, all at 100, and in between a share that exceeds
    [pct / 100] by less than one in 10^9. *)
Theorem drop_share (m : gmap Z Z) (pct : Z) :
  m !! KEY_PCT = Some pct → 0 <= pct <= 100 →
  Z.of_N (drops_among m 4294967296) = 42949672 * pct + Z.min pct 96
  ∧ 0 <= 100 * Z.of_N (drops_among m 4294967296) - pct * 4294967296 <= 384
  ∧ (pct = 0 → drops_among m 4294967296 = 0%N)
  ∧ (pct = 100 → drops_among m 4294967296 = 4294967296%N).
Proof.
  intros Hpct Hr.
  assert (Hcount : Z.of_N (drops_among m 4294967296)
                   = 42949672 * pct + Z.min pct 96).
  { rewrite (drops_among_closed_form m pct) by (auto; lia).
    change (Z.of_N 4294967296 / 100) with 42949672.
    change (Z.of_N 4294967296 mod 100) with 96. lia. }
  split; [exact Hcount|]. split; [lia|]. split.
  - intros ->. apply N2Z.inj. rewrite Hcount. reflexivity.
  - intros ->. apply N2Z.inj. rewrite Hcount. reflexivity.
Qed.

Lemma drop_share_witness :
  Z.of_N (drops_among (gate_map_of 50 5 7) 4294967296)
  = 42949672 * 50 + Z.min 50 96
  ∧ 0 <= 100 * Z.of_N (drops_among (gate_map_of 50 5 7) 4294967296)
         - 50 * 4294967296 <= 384
  ∧ (50 = 0 → drops_among (gate_map_of 50 5 7) 4294967296 = 0%N)
  ∧ (50 = 100 → drops_among (gate_map_of 50 5 7) 4294967296 = 4294967296%N).
Proof.
  apply (drop_share (gate_map_of 50 5 7) 50); [reflexivity | lia].
Defined.

(** ** Runs on a sequence of frames *)

Lemma u64_range (x : Z) : 0 <= u64 x <= U64_MAX.
Proof.
  unfold u64, U64_MAX. pose proof (Z.mod_pos_bound x (2 ^ 64)). lia.
Qed.

Lemma u64_small (x : Z) : 0 <= x <= U64_MAX → u64 x = x.
Proof. unfold u64, U64_MAX. intros Hx. apply Z.mod_small. lia. Qed.

Lemma u64_add_l (x y : Z) : u64 (u64 x + y) = u64 (x + y).
Proof. unfold u64. apply Zplus_mod_idemp_l. Qed.

(** One run in terms of the two counters. *)
Lemma gate_step_counters (bo : byte_order) (f : list byte) (m : gmap Z Z)
    (prandom p d : Z) :
  m !! KEY_PASS = Some p → m !! KEY_DROP = Some d →
  0 <= p <= U64_MAX → 0 <= d <= U64_MAX →
  ∃ a m', xdp_lidar_gate bo f m prandom = Some (a, m')
    ∧ m' !! KEY_PCT = m !! KEY_PCT
    ∧ m' !! KEY_DROP = Some (u64 (d + (if is_drop a then 1 else 0)))
    ∧ m' !! KEY_PASS
      = Some (u64 (p + ((if gate_relevant f then 1 else 0)
                        - (if is_drop a then 1 else 0)))).
Proof.
  intros Hp Hd Hpr Hdr.
  destruct (count_packet_effect m KEY_PASS p Hp) as (HP & _ & HPrest).
  destruct (count_packet_effect m KEY_DROP d Hd) as (HD & _ & HDrest).
  assert (Hne : ∀ a b : Z, (a =? b) = false → a ≠ b)
    by (intros a b Hab; apply Z.eqb_neq; exact Hab).
  destruct (gate_cases bo f m prandom)
    as [(Hrel & Hrun) | [(Hrel & Hrun & _) | (Hrel & Hrun & _)]];
    rewrite Hrun, Hrel; eexists _, _; (split; [reflexivity|]);
    cbn [is_drop]; rewrite ?Z.add_0_r, ?Z.sub_0_r.
  - split; [reflexivity|].
    rewrite !u64_small by assumption. split; assumption.
  - split; [apply HPrest, Hne; reflexivity|].
    rewrite (HPrest KEY_DROP) by (apply Hne; reflexivity).
    rewrite (u64_small d) by assumption. split; [exact Hd | exact HP].
  - split; [apply HDrest, Hne; reflexivity|].
    rewrite (HDrest KEY_PASS) by (apply Hne; reflexivity).
    replace (p + (1 - 1)) with p by lia.
    rewrite (u64_small p) by assumption. split; [exact HD | exact Hp].
Qed.

(** X11 (the counters account for every verdict): run the program on any
    sequence of frames, starting from a map that holds the two counters.
    Every run returns; key 0 ends as it started; the dropped counter has
    advanced, as a 64-bit value, by the number of [XDP_DROP] verdicts; the
    passed counter has advanced by the number of gate-relevant frames that
    were not dropped. *)
Theorem counters_account_for_verdicts (bo : byte_order)
    (calls : list (list byte * Z)) (m : gmap Z Z) (p d : Z) :
  m !! KEY_PASS = Some p → m !! KEY_DROP = Some d →
  0 <= p <= U64_MAX → 0 <= d <= U64_MAX →
  ∃ acts m', xdp_lidar_gate_seq bo calls m = Some (acts, m')
    ∧ length acts = length calls
    ∧ m' !! KEY_PCT = m !! KEY_PCT
    ∧ m' !! KEY_DROP = Some (u64 (d + verdicts_dropped acts))
    ∧ m' !! KEY_PASS
      = Some (u64 (p + (frames_relevant calls - verdicts_dropped acts))).
Proof.
  revert m p d. induction calls as [|[f prandom] rest IH];
    intros m p d Hp Hd Hpr Hdr.
  - exists [], m. simpl. split; [reflexivity|]. split; [reflexivity|].
    split; [reflexivity|].
    unfold verdicts_dropped, frames_relevant. simpl.
    rewrite !Z.add_0_r, !u64_small by assumption. split; assumption.
  - destruct (gate_step_counters bo f m prandom p d Hp Hd Hpr Hdr)
      as (a & m1 & Hrun & H0 & HD1 & HP1).
    destruct (IH m1 _ _ HP1 HD1 (u64_range _) (u64_range _))
      as (acts & m2 & Hseq & Hlen & H0' & HD2 & HP2).
    exists (a :: acts), m2. simpl. rewrite Hrun, Hseq.
    split; [reflexivity|]. split; [rewrite Hlen; reflexivity|].
    split; [rewrite H0'; exact H0|].
    rewrite u64_add_l in HD2, HP2.
    assert (Hdrops : verdicts_dropped (a :: acts)
                     = (if is_drop a then 1 else 0) + verdicts_dropped acts).
    { unfold verdicts_dropped. simpl. destruct (is_drop a); simpl; lia. }
    assert (Hrels : frames_relevant ((f, prandom) :: rest)
                    = (if gate_relevant f then 1 else 0) + frames_relevant rest).
    { unfold frames_relevant. simpl. destruct (gate_relevant f); simpl; lia. }
    rewrite Hdrops, Hrels, HD2, HP2. split; do 2 f_equal; lia.
Qed.

Lemma counters_account_for_verdicts_witness :
  ∃ acts m',
    xdp_lidar_gate_seq LittleEndian
      [(lidar_frame, 1234); (other_port_frame, 3); (lidar_frame, 1250)]
      (gate_map_of 50 5 7) = Some (acts, m')
    ∧ length acts = length
        [(lidar_frame, 1234); (other_port_frame, 3); (lidar_frame, 1250)]
    ∧ m' !! KEY_PCT = gate_map_of 50 5 7 !! KEY_PCT
    ∧ m' !! KEY_DROP = Some (u64 (7 + verdicts_dropped acts))
    ∧ m' !! KEY_PASS
      = Some (u64 (5 + (frames_relevant
                          [(lidar_frame, 1234); (other_port_frame, 3);
                           (lidar_frame, 1250)]
                        - verdicts_dropped acts))).
Proof.
  apply (counters_account_for_verdicts LittleEndian
           [(lidar_frame, 1234); (other_port_frame, 3); (lidar_frame, 1250)]
           (gate_map_of 50 5 7) 5 7);
    try reflexivity; vm_compute; split; congruence.
Defined.

Example three_frames_in_a_row :
  xdp_lidar_gate_seq LittleEndian
    [(lidar_frame, 1234); (other_port_frame, 3); (lidar_frame, 1250)]
    (gate_map_of 50 5 7)
  = Some ([XDP_DROP; XDP_PASS; XDP_PASS], gate_map_of 50 6 8).
Proof. vm_compute. reflexivity. Qed.

Lemma gate_map_of_array_map (pct passed dropped : Z) :
  0 <= pct <= U64_MAX → 0 <= passed <= U64_MAX → 0 <= dropped <= U64_MAX →
  array_map (gate_map_of pct passed dropped).
Proof.
  intros Hpct Hp Hd. unfold gate_map_of, array_map, MAX_ENTRIES.
  split; [intros k | intros k v];
    rewrite !lookup_insert, lookup_singleton; repeat case_decide; subst.
  all: try (split; [lia | eauto]).
  all: try (intros [= <-]; unfold U64_MAX in *; lia).
  all: try (split; [intros [v [=]] | lia]).
  all: try discriminate.
Qed.

Lemma xdp_lidar_gate_array_map_witness : array_map (gate_map_of 50 5 8).
Proof.
  apply (xdp_lidar_gate_array_map LittleEndian lidar_frame (gate_map_of 50 5 7)
           (gate_map_of 50 5 8) 1234 XDP_DROP).
  - apply gate_map_of_array_map; unfold U64_MAX; lia.
  - vm_compute. reflexivity.
Defined.

(** X13 (a higher percentage never drops less): with the same frame and the
    same value of the random helper, a frame that is dropped under one drop
    percentage is dropped under every higher one. *)
Theorem drop_monotone_in_percentage (bo : byte_order) (f : list byte)
    (m1 m2 m1' : gmap Z Z) (prandom pct1 pct2 : Z) :
  m1 !! KEY_PCT = Some pct1 → m2 !! KEY_PCT = Some pct2 → pct1 <= pct2 →
  xdp_lidar_gate bo f m1 prandom = Some (XDP_DROP, m1') →
  xdp_lidar_gate bo f m2 prandom = Some (XDP_DROP, count_packet m2 KEY_DROP).
Proof.
  intros H1 H2 Hle Hrun1.
  destruct (gate_cases bo f m1 prandom)
    as [(_ & Hrun) | [(_ & Hrun & _) | (Hrel & Hrun & pct & Hpct & Hlt)]];
    rewrite Hrun in Hrun1; try discriminate Hrun1.
  assert (pct = pct1) by congruence. subst pct.
  unfold xdp_lidar_gate.
  rewrite (run_gate_relevant bo f m2 prandom Hrel),
    (gate_decision_drop m2 prandom pct2 H2) by lia.
  reflexivity.
Qed.

Lemma drop_monotone_in_percentage_witness :
  xdp_lidar_gate LittleEndian lidar_frame (gate_map_of 80 5 7) 1234
  = Some (XDP_DROP, count_packet (gate_map_of 80 5 7) KEY_DROP).
Proof.
  apply (drop_monotone_in_percentage LittleEndian lidar_frame
           (gate_map_of 50 5 7) (gate_map_of 80 5 7) (gate_map_of 50 5 8)
           1234 50 80).
  - reflexivity.
  - reflexivity.
  - lia.
  - vm_compute. reflexivity.
Defined.
